(** * skydoc/rule.py: the view model handed to the documentation templates

    A shallow embedding of [skydoc/rule.py] (classes [Attribute], [Output],
    [Rule] and [RuleSet]) together with the properties of the specification
    that concern it.

    Python strings are modelled as [string] (lists of 8-bit characters),
    protocol-buffer messages as records, their repeated fields as lists,
    optional scalar fields read through [HasField] as [option], and a
    constructor that can raise as a function into [result]. *)

From Stdlib Require Import Strings.String Strings.Ascii Lists.List ZArith Bool Lia.
Import ListNotations.

Open Scope string_scope.

(** ** Python string primitives used by the module *)

Module Py.

(** The one-character string holding a double quote (code 34). *)
Definition dquote : string := String (ascii_of_nat 34) EmptyString.

(** The line feed character (code 10), Python's [\n]. *)
Definition LF : ascii := ascii_of_nat 10.

(** [s[n:]] for [0 <= n]: slicing clamps, so dropping more characters than
    the string has gives the empty string. *)
Fixpoint slice_from (n : nat) (s : string) : string :=
  match n, s with
  | O, _ => s
  | S _, EmptyString => EmptyString
  | S k, String _ s' => slice_from k s'
  end.

(** [s.startswith(p)]. *)
Definition startswith (s p : string) : bool := String.prefix p s.

(** The scan of [s.replace(old, new)] for a non-empty [old]: left to right,
    each occurrence of [old] found is replaced by [new] and the scan resumes
    after it, so occurrences do not overlap and the text already produced is
    not scanned again.  [skip] counts the characters of the current occurrence
    that are still to be passed over. *)
Fixpoint replace_scan (old new : string) (skip : nat) (s : string) : string :=
  match s with
  | EmptyString => EmptyString
  | String c s' =>
      match skip with
      | S k => replace_scan old new k s'
      | O =>
          if String.prefix old s
          then new ++ replace_scan old new (String.length old - 1) s'
          else String c (replace_scan old new 0 s')
      end
  end.

(** [s.replace(old, new)], for a non-empty [old] (the only use in the module
    is [replace('.bzl', '')]). *)
Definition replace (s old new : string) : string := replace_scan old new 0 s.

(** The scan of [s.split(sep)] for a non-empty [sep]: the result is never
    empty, so it is returned as its first part and the list of the others. *)
Fixpoint split_scan (sep : string) (skip : nat) (s : string) : string * list string :=
  match s with
  | EmptyString => (EmptyString, [])
  | String c s' =>
      match skip with
      | S k => split_scan sep k s'
      | O =>
          if String.prefix sep s
          then (EmptyString,
                let (h, t) := split_scan sep (String.length sep - 1) s' in h :: t)
          else let (h, t) := split_scan sep 0 s' in (String c h, t)
      end
  end.

(** [s.split(sep)], for a non-empty [sep]. *)
Definition split (s sep : string) : list string :=
  let (h, t) := split_scan sep 0 s in h :: t.

(** [s.rfind(c)] for a single character: the index of its last occurrence,
    [-1] when there is none. *)
Fixpoint rfind (c : ascii) (s : string) : Z :=
  match s with
  | EmptyString => (-1)%Z
  | String d s' =>
      let r := rfind c s' in
      if (0 <=? r)%Z then (r + 1)%Z
      else if Ascii.eqb d c then 0%Z else (-1)%Z
  end.

(** [os.path.basename] (posixpath): [i = p.rfind('/') + 1; return p[i:]]. *)
Definition basename (p : string) : string :=
  let i := (rfind "/"%char p + 1)%Z in
  slice_from (Z.to_nat i) p.

(** [sep.join(parts)]. *)
Definition join (sep : string) (parts : list string) : string :=
  String.concat sep parts.

End Py.

(** ** Exceptions *)

(** Both [assert] statements of the module raise [AssertionError], with no
    message. *)
Inductive exn : Type := AssertionError.

Inductive result (A : Type) : Type :=
| Ok (a : A)
| Raise (e : exn).
Arguments Ok {A} a.
Arguments Raise {A} e.

Definition bind {A B : Type} (m : result A) (k : A -> result B) : result B :=
  match m with
  | Ok a => k a
  | Raise e => Raise e
  end.

Notation "x <- m ;; k" := (bind m (fun x => k))
  (at level 61, m at next level, right associativity).

(** [assert b]. *)
Definition assert (b : bool) : result unit :=
  if b then Ok tt else Raise AssertionError.

(** [for x in xs: body], where [body] updates the state or raises. *)
Fixpoint for_each {S X : Type} (body : S -> X -> result S) (xs : list X) (s : S)
  : result S :=
  match xs with
  | [] => Ok s
  | x :: xs' => s' <- body s x ;; for_each body xs' s'
  end.

(** ** The protocol-buffer messages read by the module *)

Module build_pb2.

Module Attribute.

(** Modelled from the spec: the type tag of an attribute.  The generated
    module [build_pb2] is not part of the sources; the module compares the
    tag with eighteen named constants of [build_pb2.Attribute] and treats
    every other value alike.  A tag that is none of the eighteen is
    [UNRECOGNIZED], carrying its number. *)
Inductive Discriminator : Type :=
| INTEGER | STRING | LABEL | OUTPUT | STRING_LIST | LABEL_LIST | OUTPUT_LIST
| DISTRIBUTION_SET | LICENSE | STRING_DICT | FILESET_ENTRY_LIST
| LABEL_LIST_DICT | STRING_LIST_DICT | BOOLEAN | TRISTATE | INTEGER_LIST
| LABEL_DICT_UNARY | SELECTOR_LIST
| UNRECOGNIZED (number : Z).

(** [==] on type tags. *)
Definition eqb (a b : Discriminator) : bool :=
  match a, b with
  | INTEGER, INTEGER | STRING, STRING | LABEL, LABEL | OUTPUT, OUTPUT
  | STRING_LIST, STRING_LIST | LABEL_LIST, LABEL_LIST
  | OUTPUT_LIST, OUTPUT_LIST | DISTRIBUTION_SET, DISTRIBUTION_SET
  | LICENSE, LICENSE | STRING_DICT, STRING_DICT
  | FILESET_ENTRY_LIST, FILESET_ENTRY_LIST | LABEL_LIST_DICT, LABEL_LIST_DICT
  | STRING_LIST_DICT, STRING_LIST_DICT | BOOLEAN, BOOLEAN
  | TRISTATE, TRISTATE | INTEGER_LIST, INTEGER_LIST
  | LABEL_DICT_UNARY, LABEL_DICT_UNARY | SELECTOR_LIST, SELECTOR_LIST => true
  | UNRECOGNIZED n, UNRECOGNIZED m => Z.eqb n m
  | _, _ => false
  end.

(** The fields of an attribute message the module reads.  [default] is
    [None] when [HasField('default')] is false. *)
Record t : Type := Build {
  name : string;
  type : Discriminator;
  mandatory : bool;
  default : option string;
  documentation : string
}.

End Attribute.

Module Output.

Record t : Type := Build {
  template : string;
  documentation : string
}.

End Output.

Module RuleDefinition.

(** Modelled from the spec: the kind tag of a definition.  The module names
    three constants of [build_pb2.RuleDefinition]; a tag that is none of
    them is [UNRECOGNIZED], carrying its number. *)
Inductive Kind : Type :=
| RULE | MACRO | REPOSITORY_RULE
| UNRECOGNIZED (number : Z).

(** [==] on kind tags. *)
Definition eqb (a b : Kind) : bool :=
  match a, b with
  | RULE, RULE | MACRO, MACRO | REPOSITORY_RULE, REPOSITORY_RULE => true
  | UNRECOGNIZED n, UNRECOGNIZED m => Z.eqb n m
  | _, _ => false
  end.

Record t : Type := Build {
  name : string;
  type : Kind;
  documentation : string;
  example_documentation : string;
  attribute : list Attribute.t;
  output : list Output.t
}.

End RuleDefinition.

(** The [language] argument of [RuleSet]: only its repeated field [rule] is
    read. *)
Module Language.

Record t : Type := Build {
  rule : list RuleDefinition.t
}.

End Language.

End build_pb2.

(** ** class Attribute *)

Module Attribute.

Import build_pb2.Attribute.

Definition NAME_LINK : string :=
  "<a href=" ++ Py.dquote ++ "https://bazel.build/docs/build-ref.html#name"
  ++ Py.dquote ++ ">Name</a>".

Definition LABEL_LINK : string :=
  "<a href=" ++ Py.dquote ++ "https://bazel.build/docs/build-ref.html#labels"
  ++ Py.dquote ++ ">Label</a>".

Definition LABELS_LINK : string :=
  "<a href=" ++ Py.dquote ++ "https://bazel.build/docs/build-ref.html#labels"
  ++ Py.dquote ++ ">labels</a>".

(** Lines 43-84 of [_get_type_str]: the value of [type_str] after the
    conditional chain on [proto.type]. *)
Definition type_label (proto : build_pb2.Attribute.t) : string :=
  if eqb (type proto) INTEGER then "Integer"
  else if eqb (type proto) STRING then "String"
  else if eqb (type proto) LABEL then LABEL_LINK
  else if eqb (type proto) OUTPUT then "Output"
  else if eqb (type proto) STRING_LIST then "List of strings"
  else if eqb (type proto) LABEL_LIST then "List of " ++ LABELS_LINK
  else if eqb (type proto) OUTPUT_LIST then "List of outputs"
  else if eqb (type proto) DISTRIBUTION_SET then "Distribution Set"
  else if eqb (type proto) LICENSE then "License"
  else if eqb (type proto) STRING_DICT then "Dictionary mapping strings to string"
  else if eqb (type proto) FILESET_ENTRY_LIST then "List of FilesetEntry"
  else if eqb (type proto) LABEL_LIST_DICT
       then "Dictionary mapping strings to lists of " ++ LABELS_LINK
  else if eqb (type proto) STRING_LIST_DICT
       then "Dictionary mapping strings to lists of strings"
  else if eqb (type proto) BOOLEAN then "Boolean"
  else if eqb (type proto) TRISTATE then "Tristate"
  else if eqb (type proto) INTEGER_LIST then "List of integers"
  else if eqb (type proto) LABEL_DICT_UNARY then "Label Dict Unary"
  else if eqb (type proto) SELECTOR_LIST then "Selector List"
  else if String.eqb (name proto) "name" then NAME_LINK
  else "Unknown".

(** [_get_type_str]: the chain, then lines 86-89. *)
Definition _get_type_str (proto : build_pb2.Attribute.t) : string :=
  let type_str := type_label proto in
  let type_str :=
    type_str ++ (if mandatory proto then "; Required" else "; Optional") in
  match default proto with
  | Some d =>
      if negb (mandatory proto) then type_str ++ "; Default is " ++ d
      else type_str
  | None => type_str
  end.

Record t : Type := Build {
  proto : build_pb2.Attribute.t;
  name : string;
  type : string;
  documentation : string
}.

Definition __init__ (proto : build_pb2.Attribute.t) : t :=
  {| proto := proto;
     name := build_pb2.Attribute.name proto;
     type := _get_type_str proto;
     documentation :=
       if String.eqb (build_pb2.Attribute.name proto) "name"
          && String.eqb (build_pb2.Attribute.documentation proto) EmptyString
       then "A unique name for this rule."
       else build_pb2.Attribute.documentation proto |}.

End Attribute.

(** ** class Output *)

Module Output.

Record t : Type := Build {
  proto : build_pb2.Output.t;
  template : string;
  documentation : string
}.

Definition __init__ (proto : build_pb2.Output.t) : t :=
  {| proto := proto;
     template := build_pb2.Output.template proto;
     documentation := build_pb2.Output.documentation proto |}.

End Output.

(** ** class Rule *)

Module Rule.

Import build_pb2.RuleDefinition.

(** The link of one attribute in a signature:
    ['<a href="#%s.%s">%s</a>' % (rule_name, attr_name, attr_name)]. *)
Definition attribute_link (rule_name attr_name : string) : string :=
  "<a href=" ++ Py.dquote ++ "#" ++ rule_name ++ "." ++ attr_name
  ++ Py.dquote ++ ">" ++ attr_name ++ "</a>".

(** The body of the loop of [_get_signature] at index [i].  The loop runs
    over [range(len(proto.attribute))], so the lookup always succeeds. *)
Definition signature_step (proto : build_pb2.RuleDefinition.t)
  (signature : string) (i : nat) : string :=
  match nth_error (attribute proto) i with
  | Some attr =>
      let signature :=
        signature ++ attribute_link (name proto) (build_pb2.Attribute.name attr) in
      if (Z.of_nat i <? Z.of_nat (List.length (attribute proto)) - 1)%Z
      then signature ++ ", "
      else signature
  | None => signature
  end.

Definition _get_signature (proto : build_pb2.RuleDefinition.t) : string :=
  let signature := name proto ++ "(" in
  let signature :=
    fold_left (signature_step proto)
              (seq 0 (List.length (attribute proto))) signature in
  signature ++ ")".

Record t : Type := Build {
  proto : build_pb2.RuleDefinition.t;
  name : string;
  type : Kind;
  documentation : string;
  example_documentation : string;
  signature : string;
  attributes : list Attribute.t;
  outputs : list Output.t;
  short_documentation : string
}.

(** The paragraph separator, two line feeds. *)
Definition paragraph_separator : string :=
  String Py.LF (String Py.LF EmptyString).

Definition __init__ (proto : build_pb2.RuleDefinition.t) : t :=
  let parts :=
    Py.split (build_pb2.RuleDefinition.documentation proto) paragraph_separator in
  {| proto := proto;
     name := build_pb2.RuleDefinition.name proto;
     type := build_pb2.RuleDefinition.type proto;
     documentation := build_pb2.RuleDefinition.documentation proto;
     example_documentation :=
       build_pb2.RuleDefinition.example_documentation proto;
     signature := _get_signature proto;
     attributes := map Attribute.__init__ (attribute proto);
     outputs := map Output.__init__ (output proto);
     short_documentation := hd EmptyString parts |}.

End Rule.

(** ** class RuleSet *)

Module RuleSet.

Import build_pb2.RuleDefinition.

Record t : Type := Build {
  bzl_file : string;
  name : string;
  language : build_pb2.Language.t;
  title : string;
  description : option string;
  output_file : string;
  definitions : list Rule.t;
  rules : list Rule.t;
  repository_rules : list Rule.t;
  macros : list Rule.t
}.

(** [self.definitions.append(definition)] and its three siblings. *)
Definition append_definition (self : t) (definition : Rule.t) : t :=
  {| bzl_file := bzl_file self; name := name self; language := language self;
     title := title self; description := description self;
     output_file := output_file self;
     definitions := definitions self ++ [definition];
     rules := rules self;
     repository_rules := repository_rules self;
     macros := macros self |}.

Definition append_rule (self : t) (definition : Rule.t) : t :=
  {| bzl_file := bzl_file self; name := name self; language := language self;
     title := title self; description := description self;
     output_file := output_file self;
     definitions := definitions self;
     rules := rules self ++ [definition];
     repository_rules := repository_rules self;
     macros := macros self |}.

Definition append_macro (self : t) (definition : Rule.t) : t :=
  {| bzl_file := bzl_file self; name := name self; language := language self;
     title := title self; description := description self;
     output_file := output_file self;
     definitions := definitions self;
     rules := rules self;
     repository_rules := repository_rules self;
     macros := macros self ++ [definition] |}.

Definition append_repository_rule (self : t) (definition : Rule.t) : t :=
  {| bzl_file := bzl_file self; name := name self; language := language self;
     title := title self; description := description self;
     output_file := output_file self;
     definitions := definitions self;
     rules := rules self;
     repository_rules := repository_rules self ++ [definition];
     macros := macros self |}.

(** The body of the loop over [language.rule] (lines 157-165). *)
Definition populate (self : t) (rule_proto : build_pb2.RuleDefinition.t)
  : result t :=
  let definition := Rule.__init__ rule_proto in
  let self := append_definition self definition in
  if eqb (type rule_proto) RULE then Ok (append_rule self definition)
  else if eqb (type rule_proto) MACRO then Ok (append_macro self definition)
  else
    _ <- assert (eqb (type rule_proto) REPOSITORY_RULE) ;;
    Ok (append_repository_rule self definition).

(** [title if title else ...]: [None] and the empty string are both false. *)
Definition truthy (title : option string) : bool :=
  match title with
  | Some s => negb (String.eqb s EmptyString)
  | None => false
  end.

Definition __init__ (bzl_file : string) (language : build_pb2.Language.t)
  (title description : option string) (strip_prefix format : string)
  : result t :=
  let file_basename := Py.basename bzl_file in
  let name := Py.replace file_basename ".bzl" EmptyString in
  let title :=
    match title with
    | Some s => if truthy title then s else name ++ " Rules"
    | None => name ++ " Rules"
    end in
  (* Generate output file name. *)
  let file_extension := if String.eqb format "html" then "html" else "md" in
  _ <- assert (Py.startswith bzl_file strip_prefix) ;;
  let output_path := Py.replace bzl_file ".bzl" EmptyString in
  let output_file := Py.slice_from (String.length strip_prefix) output_path in
  (* Populate all rules in this ruleset. *)
  for_each populate (build_pb2.Language.rule language)
    {| bzl_file := bzl_file; name := name; language := language;
       title := title; description := description;
       output_file := output_file;
       definitions := []; rules := []; repository_rules := []; macros := [] |}.

(** [any] over a list of lists: a list is true when it is not empty. *)
Definition any (ls : list (list Rule.t)) : bool :=
  existsb (fun l => match l with [] => false | _ :: _ => true end) ls.

Definition empty (self : t) : bool :=
  negb (any [rules self; macros self; repository_rules self]).

End RuleSet.

(** ** Notions used to state the properties

    The first two follow the words of the specification and are compared
    with the code; the others name what the statements speak about
    (occurrences of a text in another, recognized tags, entries of a
    kind). *)

(** Specification, section 4.1: after the base label comes the requirement,
    and the default value when there is one and the attribute is not
    mandatory. *)
Definition documented_suffix (mandatory : bool) (default : option string) : string :=
  if mandatory then "; Required"
  else match default with
       | Some d => "; Optional; Default is " ++ d
       | None => "; Optional"
       end.

(** Specification, section 4.4: a trailing [.bzl] extension is removed,
    and nothing else. *)
Fixpoint remove_trailing_extension (s : string) : string :=
  match s with
  | EmptyString => EmptyString
  | String c s' =>
      if String.eqb s ".bzl" then EmptyString
      else String c (remove_trailing_extension s')
  end.

(** [old] does not occur in [s]. *)
Definition absent (old s : string) : Prop :=
  forall pre post, s <> pre ++ old ++ post.

(** The decision of whether [old] occurs in [s]. *)
Fixpoint occurs (old s : string) : bool :=
  match s with
  | EmptyString => String.prefix old s
  | String _ s' => String.prefix old s || occurs old s'
  end.

(** [pre] is the text of [s] before the first occurrence of [old]. *)
Definition first_occurrence (old s pre post : string) : Prop :=
  s = pre ++ old ++ post
  /\ forall pre' post', s = pre' ++ old ++ post' ->
       String.length pre <= String.length pre'.

(** [r] is [s] with every occurrence of [old] replaced by [new], the
    occurrences taken from left to right. *)
Inductive Replaced (old new : string) : string -> string -> Prop :=
| Replaced_none (s : string) :
    absent old s -> Replaced old new s s
| Replaced_first (s pre post r : string) :
    first_occurrence old s pre post ->
    Replaced old new post r ->
    Replaced old new s (pre ++ new ++ r).

(** A tag is recognized when it is one of the eighteen named ones. *)
Definition recognized (t : build_pb2.Attribute.Discriminator) : bool :=
  match t with
  | build_pb2.Attribute.UNRECOGNIZED _ => false
  | _ => true
  end.

(** A kind is known when it is one of the three named ones. *)
Definition known_kind (k : build_pb2.RuleDefinition.Kind) : bool :=
  match k with
  | build_pb2.RuleDefinition.UNRECOGNIZED _ => false
  | _ => true
  end.

(** The entries of a given kind, in their order. *)
Definition of_kind (k : build_pb2.RuleDefinition.Kind)
  (protos : list build_pb2.RuleDefinition.t) : list build_pb2.RuleDefinition.t :=
  filter (fun r => build_pb2.RuleDefinition.eqb (build_pb2.RuleDefinition.type r) k)
         protos.

(** The decision of whether the character [c] occurs in [s]. *)
Fixpoint has_char (c : ascii) (s : string) : bool :=
  match s with
  | EmptyString => false
  | String d s' => Ascii.eqb d c || has_char c s'
  end.

(** An attribute message with another default value. *)
Definition with_default (proto : build_pb2.Attribute.t) (d : option string)
  : build_pb2.Attribute.t :=
  build_pb2.Attribute.Build
    (build_pb2.Attribute.name proto) (build_pb2.Attribute.type proto)
    (build_pb2.Attribute.mandatory proto) d
    (build_pb2.Attribute.documentation proto).

(** An attribute message with another documentation. *)
Definition with_documentation (proto : build_pb2.Attribute.t) (doc : string)
  : build_pb2.Attribute.t :=
  build_pb2.Attribute.Build
    (build_pb2.Attribute.name proto) (build_pb2.Attribute.type proto)
    (build_pb2.Attribute.mandatory proto) (build_pb2.Attribute.default proto)
    doc.

(** * Properties *)

Example replace_ex1 : Py.replace "rules/foo.bzl" ".bzl" "" = "rules/foo".
Proof. reflexivity. Qed.
Example replace_ex2 : Py.replace "a.bzl.b.bzlzl.bzl" ".bzl" "" = "a.bzl".
Proof. reflexivity. Qed.
Example replace_ex3 : Py.replace "a.bz.bzl" ".bzl" "-" = "a.bz-".
Proof. reflexivity. Qed.
Example split_ex1 :
  Py.split (String "a" (String Py.LF (String Py.LF (String Py.LF "b"))))
           (String Py.LF (String Py.LF ""))
  = ["a"; String Py.LF "b"].
Proof. reflexivity. Qed.
Example split_ex2 : Py.split "a--b--" "--" = ["a"; "b"; ""].
Proof. reflexivity. Qed.
Example split_ex3 : Py.split "" "--" = [""].
Proof. reflexivity. Qed.
Example basename_ex1 : Py.basename "rules/sub/foo.bzl" = "foo.bzl".
Proof. reflexivity. Qed.
Example basename_ex2 : Py.basename "foo.bzl" = "foo.bzl".
Proof. reflexivity. Qed.
Example basename_ex3 : Py.basename "rules/" = "".
Proof. reflexivity. Qed.

(** ** Strings *)

Section Strings.

Lemma append_assoc (a b c : string) : (a ++ b) ++ c = a ++ (b ++ c).
Proof. induction a as [|x a IH]; simpl; [reflexivity | now rewrite IH]. Qed.

Lemma append_empty_r (a : string) : a ++ EmptyString = a.
Proof. induction a as [|x a IH]; simpl; [reflexivity | now rewrite IH]. Qed.

Lemma length_append (a b : string) :
  String.length (a ++ b) = String.length a + String.length b.
Proof. induction a as [|x a IH]; simpl; [reflexivity | now rewrite IH]. Qed.

Lemma prefix_true_iff (p s : string) :
  String.prefix p s = true <-> exists r, s = p ++ r.
Proof.
  revert s; induction p as [|x p IH]; intros s; simpl.
  - destruct s; split; intros; try reflexivity; eexists; reflexivity.
  - destruct s as [|y s].
    + split; [discriminate | intros [r Hr]; discriminate].
    + simpl. destruct (ascii_dec x y) as [Hxy|Hxy].
      * subst y. split.
        -- intros H. apply IH in H as [r Hr]. exists r. now rewrite Hr.
        -- intros [r Hr]. apply IH. exists r. now inversion Hr.
      * split; [discriminate | intros [r Hr]; inversion Hr; now elim Hxy].
Qed.

Lemma prefix_false_iff (p s : string) :
  String.prefix p s = false <-> forall r, s <> p ++ r.
Proof.
  split.
  - intros H r Hr.
    assert (String.prefix p s = true) by (apply prefix_true_iff; eauto).
    congruence.
  - intros H. destruct (String.prefix p s) eqn:E; [|reflexivity].
    apply prefix_true_iff in E as [r Hr]. now elim (H r).
Qed.

Lemma occurs_false_absent (old s : string) :
  occurs old s = false -> absent old s.
Proof.
  induction s as [|c s IH]; cbn [occurs]; intros H pre post Hocc.
  - apply (proj1 (prefix_false_iff _ _) H EmptyString).
    destruct pre; [|discriminate]. simpl in Hocc.
    destruct old; [reflexivity | discriminate].
  - apply orb_false_iff in H as [Hp Ho].
    destruct pre as [|x pre].
    + now elim (proj1 (prefix_false_iff _ _) Hp post).
    + simpl in Hocc. inversion Hocc. now elim (IH Ho pre post).
Qed.

Lemma slice_from_append (a b : string) :
  Py.slice_from (String.length a) (a ++ b) = b.
Proof. induction a as [|x a IH]; simpl; [now destruct b | exact IH]. Qed.

End Strings.

(** ** Attribute: the display type *)

Section AttributeType.

Import build_pb2.Attribute.

(** The display type is the label of the chain followed by the documented
    suffix. *)
Lemma get_type_str_label_suffix (proto : build_pb2.Attribute.t) :
  Attribute._get_type_str proto
  = Attribute.type_label proto
    ++ documented_suffix (mandatory proto) (default proto).
Proof.
  unfold Attribute._get_type_str, documented_suffix.
  destruct (default proto) as [d|], (mandatory proto); simpl;
    try reflexivity.
  now rewrite append_assoc.
Qed.

(** The label of a recognized tag does not depend on the attribute's name. *)
Lemma type_label_recognized (p q : build_pb2.Attribute.t) :
  type p = type q -> recognized (type p) = true ->
  Attribute.type_label p = Attribute.type_label q.
Proof.
  unfold Attribute.type_label. intros <- H.
  destruct (type p); try reflexivity; discriminate.
Qed.

(** The label of an unrecognized tag is decided by the name alone. *)
Lemma type_label_unrecognized (p : build_pb2.Attribute.t) (n : Z) :
  type p = UNRECOGNIZED n ->
  Attribute.type_label p
  = if String.eqb (name p) "name" then Attribute.NAME_LINK else "Unknown".
Proof. unfold Attribute.type_label. now intros ->. Qed.

(** C1, as stated, fails: an attribute named [name] whose tag is [INTEGER]
    is labelled [Integer], not with the Name link. *)
Lemma C1_counterexample :
  let proto := build_pb2.Attribute.Build "name" INTEGER false None EmptyString in
  name proto = "name"
  /\ Attribute.type_label proto = "Integer"
  /\ Attribute.type_label proto <> Attribute.NAME_LINK
  /\ Attribute.type (Attribute.__init__ proto) = "Integer; Optional".
Proof. cbv zeta. repeat split. discriminate. Qed.

(** C1 (amended): for an attribute named [name] whose type tag is none of
    the eighteen recognized ones, the base label is the hyperlinked Name
    term, whatever the number of the tag; when the tag is recognized the
    label is that of the tag, the same as for any other name. *)
Theorem C1_name_label (proto : build_pb2.Attribute.t) :
  name proto = "name" ->
  (forall n, type proto = UNRECOGNIZED n ->
     Attribute.type_label proto = Attribute.NAME_LINK
     /\ Attribute.type (Attribute.__init__ proto)
        = Attribute.NAME_LINK
          ++ documented_suffix (mandatory proto) (default proto))
  /\ (recognized (type proto) = true ->
      forall other,
        Attribute.type_label proto
        = Attribute.type_label
            (Build other (type proto) (mandatory proto) (default proto)
                   (documentation proto))).
Proof.
  intros Hname. split.
  - intros n Hn.
    assert (Attribute.type_label proto = Attribute.NAME_LINK) as E.
    { rewrite (type_label_unrecognized _ _ Hn), Hname. reflexivity. }
    split; [exact E|].
    simpl. now rewrite get_type_str_label_suffix, E.
  - intros Hrec other. now apply type_label_recognized.
Qed.

Lemma C1_name_label_witness :
  let proto :=
    build_pb2.Attribute.Build "name" (UNRECOGNIZED 18) true None EmptyString in
  Attribute.type_label proto = Attribute.NAME_LINK
  /\ Attribute.type (Attribute.__init__ proto)
     = Attribute.NAME_LINK ++ "; Required".
Proof.
  exact (proj1 (C1_name_label
                  (build_pb2.Attribute.Build "name" (UNRECOGNIZED 18) true None
                                             EmptyString)
                  eq_refl) 18%Z eq_refl).
Defined.

(** C4, as stated, fails in its last part: an unrecognized tag on a
    non-mandatory attribute that has a default value is displayed with the
    default after [Unknown; Optional]. *)
Lemma C4_counterexample :
  let proto :=
    build_pb2.Attribute.Build "srcs" (UNRECOGNIZED 18) false (Some "[]")
                              EmptyString in
  name proto <> "name"
  /\ mandatory proto = false
  /\ Attribute.type (Attribute.__init__ proto)
     = "Unknown; Optional; Default is []"
  /\ Attribute.type (Attribute.__init__ proto) <> "Unknown; Optional".
Proof. cbv zeta. repeat split; discriminate. Qed.

(** C4 (amended): each of the eighteen recognized tags gives its documented
    base label, followed by the requirement and default suffix; an
    unrecognized tag on an attribute not named [name] is displayed as
    [Unknown; Required] when mandatory, and otherwise as [Unknown; Optional],
    followed by [; Default is] and the default value when there is one. *)
Theorem C4_type_labels (nm doc : string) (m : bool) (d : option string) :
  let shown t := Attribute.type (Attribute.__init__ (Build nm t m d doc)) in
  let suffix := documented_suffix m d in
  (shown INTEGER = "Integer" ++ suffix
   /\ shown STRING = "String" ++ suffix
   /\ shown LABEL = Attribute.LABEL_LINK ++ suffix
   /\ shown OUTPUT = "Output" ++ suffix
   /\ shown STRING_LIST = "List of strings" ++ suffix
   /\ shown LABEL_LIST = ("List of " ++ Attribute.LABELS_LINK) ++ suffix
   /\ shown OUTPUT_LIST = "List of outputs" ++ suffix
   /\ shown DISTRIBUTION_SET = "Distribution Set" ++ suffix
   /\ shown LICENSE = "License" ++ suffix
   /\ shown STRING_DICT = "Dictionary mapping strings to string" ++ suffix
   /\ shown FILESET_ENTRY_LIST = "List of FilesetEntry" ++ suffix
   /\ shown LABEL_LIST_DICT
      = ("Dictionary mapping strings to lists of " ++ Attribute.LABELS_LINK)
        ++ suffix
   /\ shown STRING_LIST_DICT
      = "Dictionary mapping strings to lists of strings" ++ suffix
   /\ shown BOOLEAN = "Boolean" ++ suffix
   /\ shown TRISTATE = "Tristate" ++ suffix
   /\ shown INTEGER_LIST = "List of integers" ++ suffix
   /\ shown LABEL_DICT_UNARY = "Label Dict Unary" ++ suffix
   /\ shown SELECTOR_LIST = "Selector List" ++ suffix)
  /\ (nm <> "name" ->
      forall n,
        (m = true -> shown (UNRECOGNIZED n) = "Unknown; Required")
        /\ (m = false -> d = None -> shown (UNRECOGNIZED n) = "Unknown; Optional")
        /\ (m = false -> forall v, d = Some v ->
            shown (UNRECOGNIZED n) = "Unknown; Optional; Default is " ++ v)).
Proof.
  cbv beta zeta.
  assert (forall t,
            Attribute.type (Attribute.__init__ (Build nm t m d doc))
            = Attribute.type_label (Build nm t m d doc) ++ documented_suffix m d)
    as E by (intros t; apply get_type_str_label_suffix).
  rewrite !E. split.
  - repeat split.
  - intros Hnm n. rewrite E. unfold Attribute.type_label. simpl.
    apply String.eqb_neq in Hnm. rewrite Hnm.
    repeat split.
    + now intros ->.
    + now intros -> ->.
    + now intros -> v ->.
Qed.

Lemma C4_type_labels_witness :
  Attribute.type
    (Attribute.__init__
       (Build "srcs" (UNRECOGNIZED 18) true (Some "[]") "Sources."))
  = "Unknown; Required".
Proof.
  refine (proj1 (proj2 (C4_type_labels "srcs" "Sources." true (Some "[]")) _ 18%Z)
                eq_refl).
  discriminate.
Defined.

(** C9: with a default value present, a mandatory attribute is displayed
    as its base label followed by [; Required] and nothing more; a
    non-mandatory one as its base label followed by
    [; Optional; Default is] and the default value. *)
Theorem C9_default_suffix (proto : build_pb2.Attribute.t) (d : string) :
  default proto = Some d ->
  (mandatory proto = true ->
     Attribute.type (Attribute.__init__ proto)
     = Attribute.type_label proto ++ "; Required")
  /\ (mandatory proto = false ->
      Attribute.type (Attribute.__init__ proto)
      = Attribute.type_label proto ++ "; Optional; Default is " ++ d).
Proof.
  intros Hd. simpl. rewrite get_type_str_label_suffix, Hd.
  split; intros ->; reflexivity.
Qed.

Lemma C9_default_suffix_witness :
  Attribute.type
    (Attribute.__init__ (Build "deps" LABEL_LIST true (Some "[]") EmptyString))
  = ("List of " ++ Attribute.LABELS_LINK) ++ "; Required"
  /\ Attribute.type
       (Attribute.__init__ (Build "deps" LABEL_LIST false (Some "[]") EmptyString))
     = ("List of " ++ Attribute.LABELS_LINK) ++ "; Optional; Default is []".
Proof.
  split.
  - exact (proj1 (C9_default_suffix
                    (Build "deps" LABEL_LIST true (Some "[]") EmptyString) "[]"
                    eq_refl) eq_refl).
  - exact (proj2 (C9_default_suffix
                    (Build "deps" LABEL_LIST false (Some "[]") EmptyString) "[]"
                    eq_refl) eq_refl).
Defined.

End AttributeType.

(** ** Rule: the signature *)

Section Signature.

Import build_pb2.RuleDefinition.

Variable proto : build_pb2.RuleDefinition.t.

(** The link of an attribute of [proto], written out. *)
Let link (a : build_pb2.Attribute.t) : string :=
  "<a href=" ++ Py.dquote ++ "#" ++ name proto ++ "."
  ++ build_pb2.Attribute.name a ++ Py.dquote ++ ">"
  ++ build_pb2.Attribute.name a ++ "</a>".

Lemma nth_error_middle {A : Type} (pre : list A) (a : A) (rest : list A) :
  nth_error (pre ++ a :: rest)%list (List.length pre) = Some a.
Proof. induction pre as [|x pre IH]; simpl; [reflexivity | exact IH]. Qed.

(** The loop, started at index [length done] with [todo] still to visit,
    appends the links of [todo] joined by comma and space. *)
Lemma signature_loop (todo : list build_pb2.Attribute.t) :
  forall (done : list build_pb2.Attribute.t) (acc : string),
    attribute proto = (done ++ todo)%list ->
    fold_left (Rule.signature_step proto)
              (seq (List.length done) (List.length todo)) acc
    = acc ++ Py.join ", " (map link todo).
Proof.
  induction todo as [|a todo IH]; intros done acc Hsplit.
  - simpl. now rewrite append_empty_r.
  - cbn [List.length seq fold_left].
    assert (Rule.signature_step proto acc (List.length done)
            = match todo with
              | [] => acc ++ link a
              | _ :: _ => (acc ++ link a) ++ ", "
              end) as Hstep.
    { unfold Rule.signature_step.
      rewrite Hsplit, nth_error_middle, length_app. cbn [List.length].
      destruct todo as [|b todo].
      - destruct (_ <? _)%Z eqn:E; [|reflexivity].
        apply Z.ltb_lt in E. simpl in E. lia.
      - destruct (_ <? _)%Z eqn:E; [reflexivity|].
        apply Z.ltb_ge in E. simpl List.length in E. lia. }
    rewrite Hstep.
    replace (S (List.length done)) with (List.length (done ++ [a])%list)
      by (rewrite length_app; simpl; lia).
    rewrite IH by (now rewrite <- app_assoc).
    destruct todo as [|b todo].
    + simpl. now rewrite append_empty_r.
    + change (Py.join ", " (map link (a :: b :: todo)))
        with (link a ++ ", " ++ Py.join ", " (map link (b :: todo))).
      now rewrite !append_assoc.
Qed.

Lemma get_signature_joined :
  Rule._get_signature proto
  = name proto ++ "(" ++ Py.join ", " (map link (attribute proto)) ++ ")".
Proof.
  unfold Rule._get_signature.
  pose proof (signature_loop (attribute proto) [] (name proto ++ "(") eq_refl)
    as Hloop.
  cbn [List.length] in Hloop. rewrite Hloop.
  now rewrite !append_assoc.
Qed.

End Signature.

(** C7: the signature is the rule name, an opening parenthesis, one link
    [<a href="#RULE.ATTR">ATTR</a>] per attribute in declaration order,
    joined by comma and space, and a closing parenthesis; for [my_rule] with
    attributes [name], [srcs], [deps] it is the string of the
    specification. *)
Theorem C7_signature :
  (forall proto : build_pb2.RuleDefinition.t,
     Rule.signature (Rule.__init__ proto)
     = build_pb2.RuleDefinition.name proto ++ "("
       ++ Py.join ", "
            (map (fun a =>
                    "<a href=" ++ Py.dquote ++ "#"
                    ++ build_pb2.RuleDefinition.name proto ++ "."
                    ++ build_pb2.Attribute.name a ++ Py.dquote ++ ">"
                    ++ build_pb2.Attribute.name a ++ "</a>")
                 (build_pb2.RuleDefinition.attribute proto))
       ++ ")")
  /\ (forall kind doc example outputs t1 t2 t3 m1 m2 m3 d1 d2 d3 doc1 doc2 doc3,
        Rule.signature
          (Rule.__init__
             (build_pb2.RuleDefinition.Build "my_rule" kind doc example
                [build_pb2.Attribute.Build "name" t1 m1 d1 doc1;
                 build_pb2.Attribute.Build "srcs" t2 m2 d2 doc2;
                 build_pb2.Attribute.Build "deps" t3 m3 d3 doc3]
                outputs))
        = "my_rule(<a href=" ++ Py.dquote ++ "#my_rule.name" ++ Py.dquote
          ++ ">name</a>, <a href=" ++ Py.dquote ++ "#my_rule.srcs" ++ Py.dquote
          ++ ">srcs</a>, <a href=" ++ Py.dquote ++ "#my_rule.deps" ++ Py.dquote
          ++ ">deps</a>)").
Proof.
  split.
  - intros proto. exact (get_signature_joined proto).
  - reflexivity.
Qed.

(** ** Rule: the short documentation *)

Section ShortDocumentation.

Variable sep : string.
Hypothesis sep_not_empty : sep <> EmptyString.

Lemma no_occurrence_in_empty (pre post : string) :
  EmptyString <> pre ++ sep ++ post.
Proof.
  destruct pre; simpl; [|discriminate].
  destruct sep; [now elim sep_not_empty | discriminate].
Qed.

(** The first part of a split is the text before the first occurrence of
    the separator, or the whole text when the separator does not occur. *)
Lemma split_scan_first (s : string) :
  let h := fst (Py.split_scan sep 0 s) in
  ((exists post, s = h ++ sep ++ post)
   /\ (forall pre post, s = pre ++ sep ++ post ->
         String.length h <= String.length pre))
  \/ ((forall pre post, s <> pre ++ sep ++ post) /\ h = s).
Proof.
  induction s as [|c s IH]; cbv zeta.
  - right. split; [apply no_occurrence_in_empty | reflexivity].
  - cbn [Py.split_scan].
    destruct (String.prefix sep (String c s)) eqn:Hp.
    + left. cbn [fst]. split.
      * apply prefix_true_iff in Hp as [r Hr]. exists r. exact Hr.
      * intros pre post _. simpl. lia.
    + assert (forall r, String c s <> sep ++ r) as Hno
          by (now apply prefix_false_iff).
      destruct (Py.split_scan sep 0 s) as [h t] eqn:Hs. cbn [fst] in *.
      destruct IH as [[[post Hpost] Hmin] | [Hnone Hh]].
      * left. split.
        -- exists post. simpl. now rewrite <- Hpost.
        -- intros pre post' Hocc. destruct pre as [|x pre].
           ++ now elim (Hno post').
           ++ simpl in Hocc. inversion Hocc; subst x.
              simpl. apply le_n_S. eapply Hmin. eassumption.
      * right. split.
        -- intros pre post Hocc. destruct pre as [|x pre].
           ++ now elim (Hno post).
           ++ simpl in Hocc. inversion Hocc. now elim (Hnone pre post).
        -- now rewrite Hh.
Qed.

Lemma split_head (s : string) :
  hd EmptyString (Py.split s sep) = fst (Py.split_scan sep 0 s).
Proof. unfold Py.split. now destruct (Py.split_scan sep 0 s). Qed.

End ShortDocumentation.

(** C8: the short documentation is the text of the full documentation
    before the first occurrence of the paragraph separator (two line
    feeds), and the full documentation itself when the separator does not
    occur; the documentation of the specification's example is cut after
    its summary line. *)
Theorem C8_short_documentation :
  (forall proto : build_pb2.RuleDefinition.t,
     let doc := build_pb2.RuleDefinition.documentation proto in
     let short := Rule.short_documentation (Rule.__init__ proto) in
     let sep := String Py.LF (String Py.LF EmptyString) in
     ((exists post, doc = short ++ sep ++ post)
      /\ (forall pre post, doc = pre ++ sep ++ post ->
            String.length short <= String.length pre))
     \/ ((forall pre post, doc <> pre ++ sep ++ post) /\ short = doc))
  /\ (forall name kind example attrs outputs,
        Rule.short_documentation
          (Rule.__init__
             (build_pb2.RuleDefinition.Build name kind
                ("Summary line." ++ String Py.LF (String Py.LF "More details."))
                example attrs outputs))
        = "Summary line.").
Proof.
  split.
  - intros proto. cbv zeta. cbn [Rule.short_documentation Rule.__init__].
    rewrite split_head.
    apply (split_scan_first Rule.paragraph_separator). discriminate.
  - reflexivity.
Qed.

(** ** Replacement *)

Lemma replace_scan_skip (old new x rest : string) :
  Py.replace_scan old new (String.length x) (x ++ rest)
  = Py.replace_scan old new 0 rest.
Proof.
  induction x as [|c x IH]; simpl; [|exact IH].
  destruct rest; reflexivity.
Qed.

Section Replace.

Variables old new : string.
Hypothesis old_not_empty : old <> EmptyString.

Lemma replace_scan_here (rest : string) :
  Py.replace_scan old new 0 (old ++ rest)
  = new ++ Py.replace_scan old new 0 rest.
Proof.
  assert (String.prefix old (old ++ rest) = true) as Hp
      by (apply prefix_true_iff; eauto).
  destruct old as [|a o] eqn:E; [now elim old_not_empty|].
  change (String a o ++ rest) with (String a (o ++ rest)) in *.
  cbn [Py.replace_scan]. rewrite Hp.
  cbn [String.length].
  replace (S (String.length o) - 1) with (String.length o) by lia.
  f_equal. apply replace_scan_skip.
Qed.

Lemma replace_scan_absent (s : string) :
  absent old s -> Py.replace_scan old new 0 s = s.
Proof.
  induction s as [|c s IH]; intros Habs; [reflexivity|].
  cbn [Py.replace_scan].
  destruct (String.prefix old (String c s)) eqn:Hp.
  - apply prefix_true_iff in Hp as [r Hr]. now elim (Habs EmptyString r).
  - f_equal. apply IH. intros pre post Hocc.
    apply (Habs (String c pre) post). simpl. now rewrite Hocc.
Qed.

Lemma replace_scan_first (pre : string) :
  forall s post,
    first_occurrence old s pre post ->
    Py.replace_scan old new 0 s
    = pre ++ new ++ Py.replace_scan old new 0 post.
Proof.
  induction pre as [|c pre IH]; intros s post [Hs Hmin].
  - simpl in Hs. subst s. apply replace_scan_here.
  - simpl in Hs. subst s. cbn [Py.replace_scan].
    destruct (String.prefix old (String c (pre ++ old ++ post))) eqn:Hp.
    + apply prefix_true_iff in Hp as [r Hr].
      specialize (Hmin EmptyString r Hr). simpl in Hmin. lia.
    + simpl. f_equal. apply IH. split; [reflexivity|].
      intros pre' post' Hocc.
      specialize (Hmin (String c pre') post').
      simpl in Hmin. rewrite Hocc in Hmin. specialize (Hmin eq_refl). lia.
Qed.

(** A text either does not contain [old] or has a first occurrence of it. *)
Lemma absent_or_first (s : string) :
  absent old s \/ exists pre post, first_occurrence old s pre post.
Proof.
  destruct (split_scan_first old old_not_empty s) as [[[post Hpost] Hmin] | [Hnone _]].
  - right. eexists; exists post. split; eassumption.
  - left. exact Hnone.
Qed.

(** [replace] computes the replacement of every occurrence. *)
Lemma replace_Replaced (s : string) :
  Replaced old new s (Py.replace s old new).
Proof.
  unfold Py.replace.
  remember (String.length s) as n eqn:Hn.
  assert (String.length s <= n) as Hle by lia. clear Hn.
  revert s Hle. induction n as [|n IH]; intros s Hle.
  - destruct s; [|simpl in Hle; lia].
    apply Replaced_none. intros pre post. now apply no_occurrence_in_empty.
  - destruct (absent_or_first s) as [Habs | (pre & post & Hfirst)].
    + rewrite (replace_scan_absent s Habs). now apply Replaced_none.
    + rewrite (replace_scan_first pre s post Hfirst).
      eapply Replaced_first; [exact Hfirst|].
      apply IH. destruct Hfirst as [Hs _].
      rewrite Hs, !length_append in Hle.
      destruct old; [now elim old_not_empty | simpl in Hle; lia].
Qed.

(** The replacement is determined by the text. *)
Lemma Replaced_replace (s r : string) :
  Replaced old new s r -> r = Py.replace s old new.
Proof.
  unfold Py.replace. induction 1 as [s Habs | s pre post r Hfirst _ IH].
  - symmetry. now apply replace_scan_absent.
  - rewrite (replace_scan_first pre s post Hfirst). now rewrite IH.
Qed.

End Replace.

(** ** The extension [.bzl] *)

Section Extension.

Lemma absent_tail (old s : string) (c : ascii) :
  absent old (String c s) -> absent old s.
Proof.
  intros Habs pre post Hocc. apply (Habs (String c pre) post).
  simpl. now rewrite Hocc.
Qed.

(** In a text that ends with the extension and does not contain it before,
    the trailing extension is the first occurrence. *)
Lemma trailing_extension_first (stem : string) :
  absent ".bzl" stem ->
  first_occurrence ".bzl" (stem ++ ".bzl") stem EmptyString.
Proof.
  intros Habs. split; [reflexivity|].
  induction stem as [|c st IH]; intros pre' post' Hocc; [simpl; lia|].
  destruct pre' as [|c' p].
  - exfalso. simpl in Hocc. inversion Hocc as [[Hc Hst]]. clear Hocc.
    destruct st as [|x [|y [|z st']]]; simpl in Hst; try discriminate.
    inversion Hst; subst.
    apply (Habs EmptyString st'). reflexivity.
  - simpl in Hocc. inversion Hocc as [[Hc Hst]].
    simpl. apply le_n_S. apply (IH (absent_tail _ _ _ Habs) p post' Hst).
Qed.

Lemma replace_trailing_extension (stem : string) :
  absent ".bzl" stem ->
  Py.replace (stem ++ ".bzl") ".bzl" EmptyString = stem.
Proof.
  intros Habs. unfold Py.replace.
  rewrite (replace_scan_first ".bzl" EmptyString ltac:(discriminate)
             stem (stem ++ ".bzl") EmptyString
             (trailing_extension_first stem Habs)).
  simpl. now rewrite append_empty_r.
Qed.

Lemma replace_no_extension (s : string) :
  absent ".bzl" s -> Py.replace s ".bzl" EmptyString = s.
Proof. apply replace_scan_absent. Qed.

End Extension.

(** ** RuleSet: the loop over the definitions *)

Section Populate.

Import build_pb2.RuleDefinition.

(** One entry of a known kind is appended to [definitions] and to the list
    of its kind; the other fields are kept. *)
Lemma populate_known (self : RuleSet.t) (r : build_pb2.RuleDefinition.t) :
  known_kind (type r) = true ->
  exists self',
    RuleSet.populate self r = Ok self'
    /\ RuleSet.bzl_file self' = RuleSet.bzl_file self
    /\ RuleSet.name self' = RuleSet.name self
    /\ RuleSet.language self' = RuleSet.language self
    /\ RuleSet.title self' = RuleSet.title self
    /\ RuleSet.description self' = RuleSet.description self
    /\ RuleSet.output_file self' = RuleSet.output_file self
    /\ RuleSet.definitions self'
       = (RuleSet.definitions self ++ [Rule.__init__ r])%list
    /\ RuleSet.rules self'
       = (RuleSet.rules self ++ map Rule.__init__ (of_kind RULE [r]))%list
    /\ RuleSet.macros self'
       = (RuleSet.macros self ++ map Rule.__init__ (of_kind MACRO [r]))%list
    /\ RuleSet.repository_rules self'
       = (RuleSet.repository_rules self
          ++ map Rule.__init__ (of_kind REPOSITORY_RULE [r]))%list.
Proof.
  intros Hk. unfold RuleSet.populate, of_kind. cbn [filter].
  destruct (type r); try discriminate; cbn [eqb bind assert map];
    eexists; (split; [reflexivity|]); cbn; rewrite ?app_nil_r;
    repeat split.
Qed.

Lemma populate_unknown (self : RuleSet.t) (r : build_pb2.RuleDefinition.t) :
  known_kind (type r) = false ->
  RuleSet.populate self r = Raise AssertionError.
Proof.
  intros Hk. unfold RuleSet.populate.
  destruct (type r); try discriminate. reflexivity.
Qed.

Lemma populate_total (self : RuleSet.t) (r : build_pb2.RuleDefinition.t) :
  (exists self', RuleSet.populate self r = Ok self')
  \/ RuleSet.populate self r = Raise AssertionError.
Proof.
  destruct (known_kind (type r)) eqn:Hk.
  - left. destruct (populate_known self r Hk) as (self' & H & _). eauto.
  - right. now apply populate_unknown.
Qed.

Lemma of_kind_cons (k : Kind) (r : build_pb2.RuleDefinition.t)
  (l : list build_pb2.RuleDefinition.t) :
  of_kind k (r :: l) = (of_kind k [r] ++ of_kind k l)%list.
Proof. unfold of_kind. cbn [filter]. now destruct (eqb (type r) k). Qed.

(** The loop over entries of known kinds succeeds and extends the four
    lists in order. *)
Lemma for_each_populate_known (l : list build_pb2.RuleDefinition.t) :
  forall self : RuleSet.t,
    Forall (fun r => known_kind (type r) = true) l ->
    exists self',
      for_each RuleSet.populate l self = Ok self'
      /\ RuleSet.bzl_file self' = RuleSet.bzl_file self
      /\ RuleSet.name self' = RuleSet.name self
      /\ RuleSet.language self' = RuleSet.language self
      /\ RuleSet.title self' = RuleSet.title self
      /\ RuleSet.description self' = RuleSet.description self
      /\ RuleSet.output_file self' = RuleSet.output_file self
      /\ RuleSet.definitions self'
         = (RuleSet.definitions self ++ map Rule.__init__ l)%list
      /\ RuleSet.rules self'
         = (RuleSet.rules self ++ map Rule.__init__ (of_kind RULE l))%list
      /\ RuleSet.macros self'
         = (RuleSet.macros self ++ map Rule.__init__ (of_kind MACRO l))%list
      /\ RuleSet.repository_rules self'
         = (RuleSet.repository_rules self
            ++ map Rule.__init__ (of_kind REPOSITORY_RULE l))%list.
Proof.
  induction l as [|r l IH]; intros self Hall.
  - exists self. cbn. rewrite !app_nil_r. repeat split.
  - inversion Hall as [|? ? Hr Hl]; subst.
    destruct (populate_known self r Hr)
      as (s1 & E1 & B1 & N1 & L1 & T1 & D1 & O1 & F1 & R1 & M1 & P1).
    destruct (IH s1 Hl)
      as (s2 & E2 & B2 & N2 & L2 & T2 & D2 & O2 & F2 & R2 & M2 & P2).
    exists s2. cbn [for_each]. rewrite E1. cbn [bind].
    split; [exact E2|].
    rewrite B2, N2, L2, T2, D2, O2, F2, R2, M2, P2.
    rewrite B1, N1, L1, T1, D1, O1, F1, R1, M1, P1.
    rewrite (of_kind_cons RULE r l), (of_kind_cons MACRO r l),
      (of_kind_cons REPOSITORY_RULE r l).
    rewrite !map_app, <- !app_assoc. repeat split.
Qed.

(** The loop raises as soon as an entry has a kind outside the three. *)
Lemma for_each_populate_unknown (l : list build_pb2.RuleDefinition.t) :
  forall self : RuleSet.t,
    Exists (fun r => known_kind (type r) = false) l ->
    for_each RuleSet.populate l self = Raise AssertionError.
Proof.
  induction l as [|r l IH]; intros self Hex.
  - inversion Hex.
  - cbn [for_each].
    destruct (populate_total self r) as [[s1 E1] | E1]; rewrite E1; cbn [bind];
      [|reflexivity].
    inversion Hex as [? ? Hr | ? ? Hl]; subst.
    + rewrite (populate_unknown self r Hr) in E1. discriminate.
    + now apply IH.
Qed.

(** Every entry of a known kind is of exactly one of the three kinds. *)
Lemma length_by_kind (l : list build_pb2.RuleDefinition.t) :
  Forall (fun r => known_kind (type r) = true) l ->
  List.length l
  = List.length (of_kind RULE l) + List.length (of_kind MACRO l)
    + List.length (of_kind REPOSITORY_RULE l).
Proof.
  induction 1 as [|r l Hr _ IH]; [reflexivity|].
  unfold of_kind in *. cbn [filter List.length].
  destruct (type r); try discriminate; cbn [eqb List.length]; lia.
Qed.

End Populate.

(** ** The base name of a path *)

Section Basename.

Lemma rfind_absent (s : string) :
  absent "/" s -> Py.rfind "/"%char s = (-1)%Z.
Proof.
  induction s as [|c s IH]; intros Habs; [reflexivity|].
  cbn [Py.rfind]. rewrite (IH (absent_tail _ _ _ Habs)). cbn.
  destruct (Ascii.eqb_spec c "/"%char) as [->|]; [|reflexivity].
  now elim (Habs EmptyString s).
Qed.

Lemma rfind_last (dir base : string) :
  absent "/" base ->
  Py.rfind "/"%char (dir ++ "/" ++ base) = Z.of_nat (String.length dir).
Proof.
  intros Habs. induction dir as [|c dir IH].
  - cbn [append Py.rfind String.length]. rewrite (rfind_absent base Habs).
    reflexivity.
  - change (String c dir ++ "/" ++ base) with (String c (dir ++ "/" ++ base)).
    cbn [Py.rfind String.length]. rewrite IH.
    destruct (Z.leb_spec 0 (Z.of_nat (String.length dir))); lia.
Qed.

(** The base name of a path without a slash is the path. *)
Lemma basename_no_slash (s : string) :
  absent "/" s -> Py.basename s = s.
Proof. intros Habs. unfold Py.basename. now rewrite rfind_absent. Qed.

(** The base name is the text after the last slash. *)
Lemma basename_after_last_slash (dir base : string) :
  absent "/" base -> Py.basename (dir ++ "/" ++ base) = base.
Proof.
  intros Habs. unfold Py.basename. rewrite (rfind_last dir base Habs).
  replace (Z.to_nat (Z.of_nat (String.length dir) + 1))
    with (String.length (dir ++ "/")) by (rewrite length_append; simpl; lia).
  rewrite <- (slice_from_append (dir ++ "/") base) at 2.
  now rewrite append_assoc.
Qed.

End Basename.

(** ** RuleSet: construction *)

Section Construction.

Import build_pb2.RuleDefinition.

Variables (bzl_file : string) (language : build_pb2.Language.t).
Variables (title description : option string) (strip_prefix format : string).

Let constructed : result RuleSet.t :=
  RuleSet.__init__ bzl_file language title description strip_prefix format.

Lemma init_prefix_mismatch :
  Py.startswith bzl_file strip_prefix = false ->
  constructed = Raise AssertionError.
Proof.
  intros H. unfold constructed, RuleSet.__init__. now rewrite H.
Qed.

Lemma init_unknown_kind :
  Exists (fun r => known_kind (type r) = false)
         (build_pb2.Language.rule language) ->
  constructed = Raise AssertionError.
Proof.
  intros Hex. unfold constructed, RuleSet.__init__.
  destruct (Py.startswith bzl_file strip_prefix); cbn [assert bind];
    [|reflexivity].
  now apply for_each_populate_unknown.
Qed.

Lemma init_known_kinds :
  Py.startswith bzl_file strip_prefix = true ->
  Forall (fun r => known_kind (type r) = true)
         (build_pb2.Language.rule language) ->
  exists rs,
    constructed = Ok rs
    /\ RuleSet.name rs = Py.replace (Py.basename bzl_file) ".bzl" EmptyString
    /\ RuleSet.output_file rs
       = Py.slice_from (String.length strip_prefix)
                       (Py.replace bzl_file ".bzl" EmptyString)
    /\ RuleSet.definitions rs
       = map Rule.__init__ (build_pb2.Language.rule language)
    /\ RuleSet.rules rs
       = map Rule.__init__ (of_kind RULE (build_pb2.Language.rule language))
    /\ RuleSet.macros rs
       = map Rule.__init__ (of_kind MACRO (build_pb2.Language.rule language))
    /\ RuleSet.repository_rules rs
       = map Rule.__init__
             (of_kind REPOSITORY_RULE (build_pb2.Language.rule language)).
Proof.
  intros Hp Hall. unfold constructed, RuleSet.__init__.
  rewrite Hp. cbn [assert bind].
  match goal with
  | |- exists rs, for_each _ _ ?s = _ /\ _ =>
      destruct (for_each_populate_known _ s Hall)
        as (rs & E & _ & N & _ & _ & _ & O & D & R & M & P)
  end.
  exists rs. split; [exact E|].
  rewrite N, O, D, R, M, P. repeat split.
Qed.

Lemma kinds_known_or_not (l : list build_pb2.RuleDefinition.t) :
  Forall (fun r => known_kind (type r) = true) l
  \/ Exists (fun r => known_kind (type r) = false) l.
Proof.
  induction l as [|r l [IH|IH]].
  - left. constructor.
  - destruct (known_kind (type r)) eqn:Hk.
    + left. now constructor.
    + right. now constructor.
  - right. now constructor 2.
Qed.

(** A construction that succeeds had its prefix and only known kinds. *)
Lemma init_ok_inv (rs : RuleSet.t) :
  constructed = Ok rs ->
  Py.startswith bzl_file strip_prefix = true
  /\ Forall (fun r => known_kind (type r) = true)
            (build_pb2.Language.rule language).
Proof.
  intros Hok. split.
  - destruct (Py.startswith bzl_file strip_prefix) eqn:Hp; [reflexivity|].
    rewrite (init_prefix_mismatch Hp) in Hok. discriminate.
  - destruct (kinds_known_or_not (build_pb2.Language.rule language))
      as [Hall|Hex]; [exact Hall|].
    rewrite (init_unknown_kind Hex) in Hok. discriminate.
Qed.

End Construction.

(** ** RuleSet: the claims *)

Section RuleSetClaims.

Import build_pb2.RuleDefinition.



Lemma remove_trailing_extension_append (s : string) :
  remove_trailing_extension (s ++ ".bzl") = s.
Proof.
  induction s as [|c s IH]; [reflexivity|].
  change (String c s ++ ".bzl") with (String c (s ++ ".bzl")).
  cbn [remove_trailing_extension].
  destruct (String.eqb_spec (String c (s ++ ".bzl")) ".bzl") as [E|_].
  - apply (f_equal String.length) in E.
    cbn [String.length] in E. rewrite length_append in E. simpl in E. lia.
  - now rewrite IH.
Qed.

Lemma remove_trailing_extension_absent (s : string) :
  absent ".bzl" s -> remove_trailing_extension s = s.
Proof.
  induction s as [|c s IH]; intros Habs; [reflexivity|].
  cbn [remove_trailing_extension].
  destruct (String.eqb_spec (String c s) ".bzl") as [E|_].
  - now elim (Habs EmptyString EmptyString).
  - now rewrite (IH (absent_tail _ _ _ Habs)).
Qed.

(** Where the extension text occurs only at the end of a path, or not at
    all, removing every occurrence and removing the trailing extension are
    the same. *)
Lemma replace_is_remove_trailing_extension (s : string) :
  absent ".bzl" s \/ (exists stem, s = stem ++ ".bzl" /\ absent ".bzl" stem) ->
  Py.replace s ".bzl" EmptyString = remove_trailing_extension s.
Proof.
  intros [Habs | (stem & -> & Habs)].
  - now rewrite replace_no_extension, remove_trailing_extension_absent.
  - now rewrite replace_trailing_extension, remove_trailing_extension_append.
Qed.

(** C3, as stated, fails: a source path that starts with the strip-prefix
    does not make the construction succeed when an entry has a kind outside
    the three; the assertion on the kind then raises. *)
Lemma C3_counterexample :
  Py.startswith "rules/foo.bzl" "rules/" = true
  /\ RuleSet.__init__ "rules/foo.bzl"
       (build_pb2.Language.Build
          [build_pb2.RuleDefinition.Build "r" (UNRECOGNIZED 7) EmptyString
                                          EmptyString [] []])
       None None "rules/" "html"
     = Raise AssertionError
  /\ forall rs,
       RuleSet.__init__ "rules/foo.bzl"
         (build_pb2.Language.Build
            [build_pb2.RuleDefinition.Build "r" (UNRECOGNIZED 7) EmptyString
                                            EmptyString [] []])
         None None "rules/" "html"
       <> Ok rs.
Proof. repeat split. discriminate. Qed.

(** C3 (amended): the construction fails whenever the source path does not
    start with the strip-prefix; when it does and every entry has one of
    the three kinds, the construction succeeds; and when moreover [.bzl]
    occurs in the source path only as its trailing extension, or not at all,
    the output path is the source path with its extension removed and then
    the first [len(prefix)] characters removed: a path made of the prefix, a
    stem and the extension gives the stem, and [rules/foo.bzl] with the
    prefix [rules/] gives [foo]. *)
Theorem C3_output_path (bzl_file : string) (language : build_pb2.Language.t)
  (title description : option string) (strip_prefix format : string) :
  let constructed :=
    RuleSet.__init__ bzl_file language title description strip_prefix format in
  let known :=
    Forall (fun r => known_kind (type r) = true)
           (build_pb2.Language.rule language) in
  ((forall rest, bzl_file <> strip_prefix ++ rest) ->
     constructed = Raise AssertionError)
  /\ ((exists rest, bzl_file = strip_prefix ++ rest) -> known ->
      exists rs,
        constructed = Ok rs
        /\ (absent ".bzl" bzl_file
            \/ (exists s, bzl_file = s ++ ".bzl" /\ absent ".bzl" s) ->
            RuleSet.output_file rs
            = Py.slice_from (String.length strip_prefix)
                            (remove_trailing_extension bzl_file)))
  /\ (forall stem,
        bzl_file = strip_prefix ++ stem ++ ".bzl" ->
        absent ".bzl" (strip_prefix ++ stem) -> known ->
        exists rs, constructed = Ok rs /\ RuleSet.output_file rs = stem)
  /\ (exists rs,
        RuleSet.__init__ "rules/foo.bzl" (build_pb2.Language.Build []) title
                         description "rules/" format = Ok rs
        /\ RuleSet.output_file rs = "foo").
Proof.
  cbv zeta. repeat split.
  - intros Hno. apply init_prefix_mismatch. now apply prefix_false_iff.
  - intros Hstarts Hknown. apply prefix_true_iff in Hstarts.
    destruct (init_known_kinds bzl_file language title description
                strip_prefix format Hstarts Hknown) as (rs & E & _ & O & _).
    exists rs. split; [exact E|].
    intros Honly. now rewrite O, (replace_is_remove_trailing_extension _ Honly).
  - intros stem Hpath Habs Hknown.
    assert (Py.startswith bzl_file strip_prefix = true) as Hstarts
        by (apply prefix_true_iff; eauto).
    destruct (init_known_kinds bzl_file language title description
                strip_prefix format Hstarts Hknown) as (rs & E & _ & O & _).
    exists rs. split; [exact E|].
    rewrite O, Hpath, <- append_assoc, (replace_trailing_extension _ Habs).
    apply slice_from_append.
  - eexists. split; reflexivity.
Qed.

Lemma C3_output_path_witness :
  (exists rs,
     RuleSet.__init__ "docs/rules/go.bzl" (build_pb2.Language.Build []) None None
                      "docs/" "md" = Ok rs
     /\ RuleSet.output_file rs = "rules/go")
  /\ RuleSet.__init__ "rules/go.bzl" (build_pb2.Language.Build []) None None
                      "docs/" "md" = Raise AssertionError.
Proof.
  split.
  - refine (proj1 (proj2 (proj2 (C3_output_path "docs/rules/go.bzl"
              (build_pb2.Language.Build []) None None "docs/" "md")))
              "rules/go" eq_refl _ (Forall_nil _)).
    apply occurs_false_absent. reflexivity.
  - refine (proj1 (C3_output_path "rules/go.bzl"
              (build_pb2.Language.Build []) None None "docs/" "md") _).
    intros rest H. discriminate.
Defined.

(** C5: for a rule set whose entries are [N] rules, [M] macros and [K]
    repository rules and nothing else (and whose path starts with the
    prefix, so that it is constructed), [definitions] holds the descriptor
    of every entry in input order and has length [N+M+K]; [rules], [macros]
    and [repository_rules] hold the descriptors of the entries of their kind
    in their original order and have lengths [N], [M] and [K]; and [empty()]
    is true exactly when [N], [M] and [K] are all zero. *)
Theorem C5_partition (bzl_file : string) (language : build_pb2.Language.t)
  (title description : option string) (strip_prefix format : string) :
  let entries := build_pb2.Language.rule language in
  let N := List.length (of_kind RULE entries) in
  let M := List.length (of_kind MACRO entries) in
  let K := List.length (of_kind REPOSITORY_RULE entries) in
  Py.startswith bzl_file strip_prefix = true ->
  Forall (fun r => known_kind (type r) = true) entries ->
  exists rs,
    RuleSet.__init__ bzl_file language title description strip_prefix format
    = Ok rs
    /\ RuleSet.definitions rs = map Rule.__init__ entries
    /\ RuleSet.rules rs = map Rule.__init__ (of_kind RULE entries)
    /\ RuleSet.macros rs = map Rule.__init__ (of_kind MACRO entries)
    /\ RuleSet.repository_rules rs
       = map Rule.__init__ (of_kind REPOSITORY_RULE entries)
    /\ List.length (RuleSet.definitions rs) = N + M + K
    /\ List.length (RuleSet.rules rs) = N
    /\ List.length (RuleSet.macros rs) = M
    /\ List.length (RuleSet.repository_rules rs) = K
    /\ (RuleSet.empty rs = true <-> N = 0 /\ M = 0 /\ K = 0).
Proof.
  cbv zeta. intros Hstarts Hknown.
  destruct (init_known_kinds bzl_file language title description
              strip_prefix format Hstarts Hknown)
    as (rs & E & _ & _ & D & R & M & P).
  exists rs. split; [exact E|].
  unfold RuleSet.empty, RuleSet.any. cbn [existsb].
  rewrite D, R, M, P, !length_map.
  repeat split; try (now apply length_by_kind).
  - destruct (of_kind RULE _); [reflexivity | discriminate].
  - destruct (of_kind RULE _); [|discriminate].
    destruct (of_kind MACRO _); [reflexivity | discriminate].
  - destruct (of_kind RULE _); [|discriminate].
    destruct (of_kind MACRO _); [|discriminate].
    destruct (of_kind REPOSITORY_RULE _); [reflexivity | discriminate].
  - intros (HN & HM & HK).
    destruct (of_kind RULE _); [|discriminate].
    destruct (of_kind MACRO _); [|discriminate].
    destruct (of_kind REPOSITORY_RULE _); [reflexivity | discriminate].
Qed.

Lemma C5_partition_witness :
  let mk name kind :=
    build_pb2.RuleDefinition.Build name kind EmptyString EmptyString [] [] in
  exists rs,
    RuleSet.__init__ "rules/foo.bzl"
      (build_pb2.Language.Build
         [mk "a_macro" MACRO; mk "a_rule" RULE; mk "b_rule" RULE;
          mk "a_repo" REPOSITORY_RULE])
      None None "rules/" "html" = Ok rs
    /\ map Rule.name (RuleSet.definitions rs)
       = ["a_macro"; "a_rule"; "b_rule"; "a_repo"]
    /\ map Rule.name (RuleSet.rules rs) = ["a_rule"; "b_rule"]
    /\ map Rule.name (RuleSet.macros rs) = ["a_macro"]
    /\ map Rule.name (RuleSet.repository_rules rs) = ["a_repo"]
    /\ RuleSet.empty rs = false.
Proof.
  cbv zeta.
  destruct (C5_partition "rules/foo.bzl"
              (build_pb2.Language.Build
                 [build_pb2.RuleDefinition.Build "a_macro" MACRO EmptyString
                                                 EmptyString [] [];
                  build_pb2.RuleDefinition.Build "a_rule" RULE EmptyString
                                                 EmptyString [] [];
                  build_pb2.RuleDefinition.Build "b_rule" RULE EmptyString
                                                 EmptyString [] [];
                  build_pb2.RuleDefinition.Build "a_repo" REPOSITORY_RULE
                                                 EmptyString EmptyString [] []])
              None None "rules/" "html" eq_refl
              ltac:(repeat constructor))
    as (rs & E & D & R & M & P & _ & _ & _ & _ & Hempty).
  exists rs. split; [exact E|].
  rewrite D, R, M, P. repeat split.
  destruct (RuleSet.empty rs); [|reflexivity].
  destruct (proj1 Hempty eq_refl) as [HN _]. discriminate.
Defined.

(** C6: when an entry has a kind tag outside rule, macro and repository
    rule, the construction raises the assertion failure: no rule set is
    returned, with or without that entry in its groupings. *)
Theorem C6_unknown_kind_raises (bzl_file : string)
  (language : build_pb2.Language.t) (title description : option string)
  (strip_prefix format : string) :
  Exists (fun r => type r <> RULE /\ type r <> MACRO /\ type r <> REPOSITORY_RULE)
         (build_pb2.Language.rule language) ->
  RuleSet.__init__ bzl_file language title description strip_prefix format
  = Raise AssertionError
  /\ forall rs,
       RuleSet.__init__ bzl_file language title description strip_prefix format
       <> Ok rs.
Proof.
  intros Hex.
  assert (RuleSet.__init__ bzl_file language title description strip_prefix
                           format = Raise AssertionError) as E.
  { apply init_unknown_kind. apply Exists_exists in Hex as (r & Hin & H1 & H2 & H3).
    apply Exists_exists. exists r. split; [exact Hin|].
    destruct (type r); try reflexivity; congruence. }
  split; [exact E|]. intros rs. rewrite E. discriminate.
Qed.

Lemma C6_unknown_kind_raises_witness :
  RuleSet.__init__ "rules/foo.bzl"
    (build_pb2.Language.Build
       [build_pb2.RuleDefinition.Build "a_rule" RULE EmptyString EmptyString [] [];
        build_pb2.RuleDefinition.Build "odd" (UNRECOGNIZED 4) EmptyString
                                       EmptyString [] [];
        build_pb2.RuleDefinition.Build "a_macro" MACRO EmptyString EmptyString
                                       [] []])
    None None "rules/" "html"
  = Raise AssertionError.
Proof.
  refine (proj1 (C6_unknown_kind_raises "rules/foo.bzl" _ None None "rules/"
                   "html" _)).
  apply Exists_cons_tl, Exists_cons_hd. repeat split; discriminate.
Defined.

(** C10: the code at a base name that holds the extension text before its
    end.  For [rules/my.bzl_helpers.bzl] the base name is
    [my.bzl_helpers.bzl], and with its trailing extension removed it is
    [my.bzl_helpers]; the constructed rule set is named [my_helpers]. *)
Theorem C10_unit_name_failing_input :
  exists rs,
    RuleSet.__init__ "rules/my.bzl_helpers.bzl" (build_pb2.Language.Build [])
                     None None "rules/" "html" = Ok rs
    /\ Py.basename "rules/my.bzl_helpers.bzl" = "my.bzl_helpers.bzl"
    /\ remove_trailing_extension "my.bzl_helpers.bzl" = "my.bzl_helpers"
    /\ RuleSet.name rs = "my_helpers"
    /\ RuleSet.name rs
       <> remove_trailing_extension (Py.basename "rules/my.bzl_helpers.bzl").
Proof. eexists. split; [reflexivity|]. repeat split. discriminate. Qed.

(** The same removal is applied to the source path before the prefix is
    sliced off: for [x.bzl.d/lib.bzl] with the prefix [x.bzl.d/] the
    assertion on the prefix passes, and the output path is empty, where the
    path without its extension and its prefix is [lib]. *)
Lemma output_file_at_interior_extension :
  exists rs,
    RuleSet.__init__ "x.bzl.d/lib.bzl" (build_pb2.Language.Build []) None None
                     "x.bzl.d/" "html" = Ok rs
    /\ RuleSet.output_file rs = EmptyString
    /\ Py.slice_from (String.length "x.bzl.d/")
                     (remove_trailing_extension "x.bzl.d/lib.bzl")
       = "lib".
Proof. eexists. repeat split. Qed.

(** Where the extension text occurs in the base name only as its trailing
    extension, or not at all, the unit name is the base name without that
    extension. *)
Lemma unit_name_extension_at_end (bzl_file : string)
  (language : build_pb2.Language.t) (title description : option string)
  (strip_prefix format : string) (rs : RuleSet.t) :
  RuleSet.__init__ bzl_file language title description strip_prefix format
  = Ok rs ->
  absent ".bzl" (Py.basename bzl_file)
  \/ (exists stem, Py.basename bzl_file = stem ++ ".bzl" /\ absent ".bzl" stem) ->
  RuleSet.name rs = remove_trailing_extension (Py.basename bzl_file).
Proof.
  intros Hok Honly.
  destruct (init_ok_inv _ _ _ _ _ _ _ Hok) as [Hstarts Hknown].
  destruct (init_known_kinds bzl_file language title description
              strip_prefix format Hstarts Hknown) as (rs' & E & N & _).
  rewrite Hok in E. injection E as <-.
  now rewrite N, (replace_is_remove_trailing_extension _ Honly).
Qed.

End RuleSetClaims.

(** * Further properties of the module *)

(** ** Attribute *)

Section AttributeMore.

Import build_pb2.Attribute.

(** X1: the documentation of an attribute descriptor is the fixed sentence
    when the attribute is named [name] and has no documentation, and the
    documentation of the message in every other case; so it is empty exactly
    when the message has none and the attribute is not named [name]. *)
Theorem X1_attribute_documentation (proto : build_pb2.Attribute.t) :
  (name proto = "name" /\ documentation proto = EmptyString ->
     Attribute.documentation (Attribute.__init__ proto)
     = "A unique name for this rule.")
  /\ (name proto <> "name" \/ documentation proto <> EmptyString ->
      Attribute.documentation (Attribute.__init__ proto) = documentation proto)
  /\ (Attribute.documentation (Attribute.__init__ proto) = EmptyString
      <-> documentation proto = EmptyString /\ name proto <> "name").
Proof.
  cbn [Attribute.documentation Attribute.__init__].
  destruct (String.eqb_spec (name proto) "name") as [Hn|Hn];
    destruct (String.eqb_spec (documentation proto) EmptyString) as [Hd|Hd];
    cbn [andb]; repeat split; try tauto; try discriminate;
    try (intros [H|H]; tauto); try (intros [H1 H2]; tauto).
Qed.

(** X2: the display type of a mandatory attribute does not depend on its
    default value, and no display type depends on the documentation. *)
Theorem X2_display_type_independence (proto : build_pb2.Attribute.t) :
  (mandatory proto = true ->
     forall d,
       Attribute.type (Attribute.__init__ (with_default proto d))
       = Attribute.type (Attribute.__init__ proto))
  /\ (forall doc,
        Attribute.type (Attribute.__init__ (with_documentation proto doc))
        = Attribute.type (Attribute.__init__ proto)).
Proof.
  split.
  - intros Hm d. cbn [Attribute.type Attribute.__init__].
    rewrite !get_type_str_label_suffix.
    cbn [with_default mandatory default]. rewrite Hm.
    reflexivity.
  - intros doc. reflexivity.
Qed.

(** X3: the eighteen recognized tags have pairwise different labels, and
    none of them is labelled [Unknown] or with the Name link: the label of
    a recognized tag determines the tag. *)
Theorem X3_labels_distinct (p q : build_pb2.Attribute.t) :
  recognized (type p) = true ->
  (recognized (type q) = true ->
     Attribute.type_label p = Attribute.type_label q -> type p = type q)
  /\ Attribute.type_label p <> "Unknown"
  /\ Attribute.type_label p <> Attribute.NAME_LINK.
Proof.
  intros Hp. unfold Attribute.type_label.
  destruct (type p); try discriminate Hp; cbn [eqb];
    (split; [|split; discriminate]);
    intros Hq; destruct (type q); try discriminate Hq; cbn [eqb];
    intros H; try reflexivity; discriminate H.
Qed.

Lemma X3_labels_distinct_witness :
  Attribute.type_label (Build "srcs" LABEL_LIST false None EmptyString)
  <> "Unknown".
Proof.
  exact (proj1 (proj2 (X3_labels_distinct
                         (Build "srcs" LABEL_LIST false None EmptyString)
                         (Build "deps" LABEL false None EmptyString)
                         eq_refl))).
Defined.

End AttributeMore.

(** ** Rule *)

Section RuleMore.

Import build_pb2.RuleDefinition.

(** X5: the signature of a rule without attributes is its name followed by
    an empty pair of parentheses, and the signature of a rule with one
    attribute holds its link and no separator. *)
Theorem X5_signature_small (rule_name : string) (kind : Kind)
  (doc example : string) (outputs : list build_pb2.Output.t) :
  Rule.signature (Rule.__init__ (Build rule_name kind doc example [] outputs))
  = rule_name ++ "()"
  /\ forall a,
       Rule.signature
         (Rule.__init__ (Build rule_name kind doc example [a] outputs))
       = rule_name ++ "("
         ++ Rule.attribute_link rule_name (build_pb2.Attribute.name a) ++ ")".
Proof.
  split.
  - cbn. now rewrite append_assoc.
  - intros a. cbn [Rule.signature Rule.__init__].
    rewrite get_signature_joined. reflexivity.
Qed.

(** X6: the signature is decided by the name of the rule and the names of
    its attributes, in order: two rule messages that agree on these have the
    same signature, whatever their kinds, documentation, outputs and the
    types, defaults and documentation of their attributes. *)
Theorem X6_signature_depends_on_names (p q : build_pb2.RuleDefinition.t) :
  name p = name q ->
  map build_pb2.Attribute.name (attribute p)
  = map build_pb2.Attribute.name (attribute q) ->
  Rule.signature (Rule.__init__ p) = Rule.signature (Rule.__init__ q).
Proof.
  intros Hn Ha. cbn [Rule.signature Rule.__init__].
  rewrite !get_signature_joined, Hn. do 2 f_equal. f_equal.
  rewrite <- (map_map build_pb2.Attribute.name
                (fun n => "<a href=" ++ Py.dquote ++ "#" ++ name q ++ "."
                          ++ n ++ Py.dquote ++ ">" ++ n ++ "</a>")
                (attribute p)).
  rewrite <- (map_map build_pb2.Attribute.name
                (fun n => "<a href=" ++ Py.dquote ++ "#" ++ name q ++ "."
                          ++ n ++ Py.dquote ++ ">" ++ n ++ "</a>")
                (attribute q)).
  now rewrite Ha.
Qed.

Lemma X6_signature_depends_on_names_witness :
  Rule.signature
    (Rule.__init__
       (Build "my_rule" RULE "Doc." EmptyString
          [build_pb2.Attribute.Build "srcs" build_pb2.Attribute.LABEL_LIST true
                                     None "Sources."]
          []))
  = Rule.signature
      (Rule.__init__
         (Build "my_rule" MACRO EmptyString "Example."
            [build_pb2.Attribute.Build "srcs" build_pb2.Attribute.STRING false
                                       (Some "x") EmptyString]
            [build_pb2.Output.Build "%{name}.out" "An output."])).
Proof.
  exact (X6_signature_depends_on_names
           (Build "my_rule" RULE "Doc." EmptyString
              [build_pb2.Attribute.Build "srcs" build_pb2.Attribute.LABEL_LIST
                                         true None "Sources."]
              [])
           (Build "my_rule" MACRO EmptyString "Example."
              [build_pb2.Attribute.Build "srcs" build_pb2.Attribute.STRING
                                         false (Some "x") EmptyString]
              [build_pb2.Output.Build "%{name}.out" "An output."])
           eq_refl eq_refl).
Defined.

End RuleMore.

(** ** Splitting and joining *)

Section SplitJoin.

Variable sep : string.
Hypothesis sep_not_empty : sep <> EmptyString.

Lemma split_scan_skip (x rest : string) :
  Py.split_scan sep (String.length x) (x ++ rest) = Py.split_scan sep 0 rest.
Proof.
  induction x as [|c x IH]; simpl; [|exact IH].
  destruct rest; reflexivity.
Qed.

Lemma join_cons_char (c : ascii) (h : string) (t : list string) :
  Py.join sep (String c h :: t) = String c (Py.join sep (h :: t)).
Proof. destruct t; reflexivity. Qed.

Lemma split_scan_here (rest : string) :
  Py.split_scan sep 0 (sep ++ rest)
  = (EmptyString,
     let (h, t) := Py.split_scan sep 0 rest in h :: t).
Proof.
  assert (String.prefix sep (sep ++ rest) = true) as Hp
      by (apply prefix_true_iff; eauto).
  pose proof (split_scan_skip) as Hskip.
  destruct sep as [|a o] eqn:E; [now elim sep_not_empty|].
  change (String a o ++ rest) with (String a (o ++ rest)) in *.
  cbn [Py.split_scan]. rewrite Hp. cbn [String.length].
  replace (S (String.length o) - 1) with (String.length o) by lia.
  now rewrite Hskip.
Qed.

(** The parts of a text, joined by the separator, give the text back. *)
Lemma join_split (s : string) : Py.join sep (Py.split s sep) = s.
Proof.
  unfold Py.split.
  remember (String.length s) as n eqn:Hn.
  assert (String.length s <= n) as Hle by lia. clear Hn.
  revert s Hle. induction n as [|n IH]; intros s Hle.
  - destruct s; [reflexivity | simpl in Hle; lia].
  - destruct s as [|c s]; [reflexivity|].
    destruct (String.prefix sep (String c s)) eqn:Hp.
    + apply prefix_true_iff in Hp as [rest Hrest]. rewrite Hrest.
      rewrite split_scan_here.
      assert (String.length rest <= n) as Hrest_le.
      { rewrite Hrest, length_append in Hle.
        destruct sep; [now elim sep_not_empty | simpl in Hle; lia]. }
      specialize (IH rest Hrest_le).
      destruct (Py.split_scan sep 0 rest) as [h t].
      change (Py.join sep (EmptyString :: h :: t))
        with (EmptyString ++ sep ++ Py.join sep (h :: t)).
      now rewrite IH.
    + cbn [Py.split_scan]. rewrite Hp.
      assert (String.length s <= n) as Hs by (simpl in Hle; lia).
      specialize (IH s Hs).
      destruct (Py.split_scan sep 0 s) as [h t].
      now rewrite join_cons_char, IH.
Qed.

(** The first part of a split does not contain the separator. *)
Lemma split_first_absent (s : string) :
  absent sep (fst (Py.split_scan sep 0 s)).
Proof.
  destruct (split_scan_first sep sep_not_empty s)
    as [[[post Hpost] Hmin] | [Hnone Hh]].
  - intros p q Hocc.
    assert (String.length (fst (Py.split_scan sep 0 s)) <= String.length p)
      as Hle.
    { apply (Hmin p (q ++ sep ++ post)).
      rewrite Hpost at 1. rewrite Hocc. now rewrite !append_assoc. }
    rewrite Hocc, !length_append in Hle.
    destruct sep; [now elim sep_not_empty | simpl in Hle; lia].
  - cbv zeta in Hh. now rewrite Hh.
Qed.

(** A text without the separator is the only part of its split. *)
Lemma split_absent (s : string) :
  absent sep s -> fst (Py.split_scan sep 0 s) = s.
Proof.
  intros Habs.
  destruct (split_scan_first sep sep_not_empty s)
    as [[[post Hpost] _] | [_ Hh]]; [|exact Hh].
  now elim (Habs _ _ Hpost).
Qed.

End SplitJoin.

Section RuleDocumentation.

Import build_pb2.RuleDefinition.

(** X7: the short documentation of a rule is a prefix of its documentation
    and contains no paragraph separator; a rule whose documentation is that
    short documentation has it as its short documentation again. *)
Theorem X7_short_documentation_prefix (proto : build_pb2.RuleDefinition.t) :
  let short := Rule.short_documentation (Rule.__init__ proto) in
  (exists rest, documentation proto = short ++ rest)
  /\ absent (String Py.LF (String Py.LF EmptyString)) short
  /\ forall rule_name kind example attrs outputs,
       Rule.short_documentation
         (Rule.__init__ (Build rule_name kind short example attrs outputs))
       = short.
Proof.
  cbv zeta. cbn [Rule.short_documentation Rule.__init__ documentation].
  rewrite !split_head.
  assert (Rule.paragraph_separator <> EmptyString) as Hsep by discriminate.
  repeat split.
  - destruct (split_scan_first _ Hsep (documentation proto))
      as [[[post Hpost] _] | [_ Hh]].
    + eexists. exact Hpost.
    + exists EmptyString. cbv zeta in Hh. now rewrite Hh, append_empty_r.
  - apply (split_first_absent _ Hsep).
  - intros _ _ _ _ _.
    apply (split_absent _ Hsep). apply (split_first_absent _ Hsep).
Qed.

(** X8: the paragraphs into which the documentation of a rule is split,
    the short documentation first, give the documentation back when they are
    joined by the paragraph separator. *)
Theorem X8_paragraphs_join (proto : build_pb2.RuleDefinition.t) :
  exists others,
    Py.split (documentation proto) (String Py.LF (String Py.LF EmptyString))
    = Rule.short_documentation (Rule.__init__ proto) :: others
    /\ Py.join (String Py.LF (String Py.LF EmptyString))
               (Rule.short_documentation (Rule.__init__ proto) :: others)
       = documentation proto.
Proof.
  assert (Rule.paragraph_separator <> EmptyString) as Hsep by discriminate.
  pose proof (join_split _ Hsep (documentation proto)) as Hjoin.
  cbn [Rule.short_documentation Rule.__init__].
  change (String Py.LF (String Py.LF EmptyString)) with Rule.paragraph_separator.
  unfold Py.split in *.
  destruct (Py.split_scan Rule.paragraph_separator 0 (documentation proto))
    as [h t].
  exists t. split; [reflexivity | exact Hjoin].
Qed.

End RuleDocumentation.

(** ** Characters, lengths and path components *)

Section Characters.

Lemma has_char_append (c : ascii) (a b : string) :
  has_char c (a ++ b) = has_char c a || has_char c b.
Proof.
  induction a as [|d a IH]; [reflexivity|].
  simpl. now rewrite IH, orb_assoc.
Qed.

Lemma has_char_absent (c : ascii) (s : string) :
  has_char c s = false -> absent (String c EmptyString) s.
Proof.
  intros H pre post Hocc. rewrite Hocc, has_char_append in H.
  simpl in H. rewrite Ascii.eqb_refl in H. simpl in H.
  now rewrite orb_true_r in H.
Qed.

(** Removing occurrences of a text adds no character. *)
Lemma replace_scan_has_char (c : ascii) (old s : string) :
  has_char c s = false ->
  forall skip, has_char c (Py.replace_scan old EmptyString skip s) = false.
Proof.
  induction s as [|d s IH]; intros H skip; [reflexivity|].
  cbn [has_char] in H. apply orb_false_iff in H as [Hd Hs].
  cbn [Py.replace_scan]. destruct skip as [|k]; [|now apply IH].
  destruct (String.prefix old (String d s)).
  - cbn [append]. now apply IH.
  - cbn [has_char]. rewrite Hd. now apply IH.
Qed.

(** Removing occurrences of a text does not make it longer. *)
Lemma replace_scan_length (old s : string) :
  forall skip,
    String.length (Py.replace_scan old EmptyString skip s) <= String.length s.
Proof.
  induction s as [|d s IH]; intros skip; [simpl; lia|].
  cbn [Py.replace_scan]. destruct skip as [|k].
  - destruct (String.prefix old (String d s)); cbn [append String.length].
    + specialize (IH (String.length old - 1)). lia.
    + specialize (IH 0). lia.
  - cbn [String.length]. specialize (IH k). lia.
Qed.

Lemma slice_from_length (n : nat) (s : string) :
  String.length (Py.slice_from n s) = String.length s - n.
Proof.
  revert s; induction n as [|n IH]; intros s; simpl.
  - lia.
  - destruct s; simpl; [reflexivity | apply IH].
Qed.

Lemma rfind_lower (c : ascii) (s : string) : (-1 <= Py.rfind c s)%Z.
Proof.
  induction s as [|d s IH]; cbn [Py.rfind]; [lia|].
  destruct (Z.leb_spec 0 (Py.rfind c s)); [lia|].
  destruct (Ascii.eqb d c); lia.
Qed.

(** The text after the last occurrence of a character does not hold it. *)
Lemma after_rfind_has_char (c : ascii) (s : string) :
  has_char c (Py.slice_from (Z.to_nat (Py.rfind c s + 1)) s) = false.
Proof.
  induction s as [|d s IH]; [reflexivity|].
  cbn [Py.rfind]. pose proof (rfind_lower c s) as Hlow.
  destruct (Z.leb_spec 0 (Py.rfind c s)) as [Hr|Hr].
  - replace (Z.to_nat (Py.rfind c s + 1 + 1))
      with (S (Z.to_nat (Py.rfind c s + 1))) by lia.
    exact IH.
  - replace (Py.rfind c s) with (-1)%Z in IH by lia.
    cbn [Z.add Z.to_nat Py.slice_from] in IH.
    destruct (Ascii.eqb d c) eqn:Hd.
    + cbn. exact IH.
    + cbn. rewrite Hd. exact IH.
Qed.

Lemma basename_has_no_slash (p : string) :
  has_char "/"%char (Py.basename p) = false.
Proof. apply after_rfind_has_char. Qed.

Lemma prefix_extension_slash (a b : string) :
  String.prefix ".bzl" (a ++ String "/"%char b) = String.prefix ".bzl" a.
Proof.
  destruct a as [|c0 [|c1 [|c2 [|c3 a]]]]; cbn [String.prefix append];
    repeat (match goal with
            | |- context [ascii_dec ?x ?y] => destruct (ascii_dec x y)
            end);
    try reflexivity; try congruence.
  destruct a; reflexivity.
Qed.

(** The removal of the extension text works on each side of a slash
    separately. *)
Lemma replace_at_slash (a b : string) :
  Py.replace (a ++ String "/"%char b) ".bzl" EmptyString
  = Py.replace a ".bzl" EmptyString
    ++ String "/"%char (Py.replace b ".bzl" EmptyString).
Proof.
  unfold Py.replace.
  assert (".bzl" <> EmptyString) as Hne by discriminate.
  remember (String.length a) as n eqn:Hn.
  assert (String.length a <= n) as Hle by lia. clear Hn.
  revert a Hle. induction n as [|n IH]; intros a Hle.
  - destruct a; [reflexivity | simpl in Hle; lia].
  - destruct a as [|c a]; [reflexivity|].
    destruct (String.prefix ".bzl" (String c a)) eqn:Hp.
    + apply prefix_true_iff in Hp as [rest Hrest]. rewrite Hrest.
      rewrite append_assoc.
      rewrite !(replace_scan_here ".bzl" EmptyString Hne).
      cbn [append]. apply IH.
      rewrite Hrest in Hle. simpl in Hle. lia.
    + pose proof (prefix_extension_slash (String c a) b) as Hp'.
      rewrite Hp in Hp'.
      change (String c a ++ String "/"%char b)
        with (String c (a ++ String "/"%char b)) in *.
      cbn [Py.replace_scan]. rewrite Hp, Hp'. cbn [append]. f_equal.
      apply IH. simpl in Hle. lia.
Qed.

Lemma eqb_kind_eq (a b : build_pb2.RuleDefinition.Kind) :
  build_pb2.RuleDefinition.eqb a b = true -> a = b.
Proof.
  destruct a, b; try discriminate; try reflexivity.
  simpl. intros H. apply Z.eqb_eq in H. now subst.
Qed.

End Characters.

(** ** RuleSet *)

Section RuleSetMore.

Import build_pb2.RuleDefinition.

Variables (bzl_file : string) (language : build_pb2.Language.t).
Variables (title description : option string) (strip_prefix format : string).

Let constructed : result RuleSet.t :=
  RuleSet.__init__ bzl_file language title description strip_prefix format.

(** The fields of a constructed rule set that the loop does not touch. *)
Lemma init_ok_fields (rs : RuleSet.t) :
  constructed = Ok rs ->
  RuleSet.bzl_file rs = bzl_file
  /\ RuleSet.language rs = language
  /\ RuleSet.description rs = description
  /\ RuleSet.title rs
     = match title with
       | Some s => if RuleSet.truthy title then s
                   else RuleSet.name rs ++ " Rules"
       | None => RuleSet.name rs ++ " Rules"
       end.
Proof.
  intros Hok.
  destruct (init_ok_inv bzl_file language title description strip_prefix format rs Hok) as [Hstarts Hknown].
  unfold constructed, RuleSet.__init__ in Hok.
  rewrite Hstarts in Hok. cbn [assert bind] in Hok.
  match type of Hok with
  | for_each _ _ ?s = _ =>
      destruct (for_each_populate_known _ s Hknown)
        as (rs' & E & B & N & L & T & D & _)
  end.
  rewrite E in Hok. injection Hok as <-.
  rewrite B, L, D, T, N. repeat split.
Qed.

Lemma init_ok_lists (rs : RuleSet.t) :
  constructed = Ok rs ->
  RuleSet.name rs = Py.replace (Py.basename bzl_file) ".bzl" EmptyString
  /\ RuleSet.output_file rs
     = Py.slice_from (String.length strip_prefix)
                     (Py.replace bzl_file ".bzl" EmptyString)
  /\ RuleSet.definitions rs
     = map Rule.__init__ (build_pb2.Language.rule language)
  /\ RuleSet.rules rs
     = map Rule.__init__ (of_kind RULE (build_pb2.Language.rule language))
  /\ RuleSet.macros rs
     = map Rule.__init__ (of_kind MACRO (build_pb2.Language.rule language))
  /\ RuleSet.repository_rules rs
     = map Rule.__init__
           (of_kind REPOSITORY_RULE (build_pb2.Language.rule language)).
Proof.
  intros Hok.
  destruct (init_ok_inv bzl_file language title description strip_prefix format rs Hok) as [Hstarts Hknown].
  destruct (init_known_kinds bzl_file language title description
              strip_prefix format Hstarts Hknown) as (rs' & E & H).
  fold constructed in E. rewrite Hok in E. injection E as <-. exact H.
Qed.

(** X9: the title of a constructed rule set is never empty: it is the
    title given when there is one and it is not empty, and the unit name
    followed by [ Rules] when the title is absent or empty. *)
Theorem X9_title (rs : RuleSet.t) :
  constructed = Ok rs ->
  RuleSet.title rs <> EmptyString
  /\ (forall t, title = Some t -> t <> EmptyString -> RuleSet.title rs = t)
  /\ (title = None \/ title = Some EmptyString ->
      RuleSet.title rs = RuleSet.name rs ++ " Rules").
Proof.
  intros Hok. destruct (init_ok_fields rs Hok) as (_ & _ & _ & T).
  assert (RuleSet.name rs ++ " Rules" <> EmptyString) as Hne
      by (destruct (RuleSet.name rs); discriminate).
  rewrite T. destruct title as [t|]; cbn [RuleSet.truthy].
  - destruct (String.eqb_spec t EmptyString) as [->|Ht]; cbn [negb].
    + repeat split; [exact Hne | intros t [= <-] H; now elim H].
    + repeat split; [exact Ht | now intros t' [= <-] | ].
      intros [H|[= H]]; [discriminate | now elim Ht].
  - repeat split; [exact Hne | discriminate].
Qed.

(** X10: the construction returns a rule set exactly when the source path
    starts with the strip-prefix and every entry has one of the three
    kinds; in every other case it raises the assertion failure. *)
Theorem X10_construction_succeeds_iff :
  ((exists rs, constructed = Ok rs)
   <-> (exists rest, bzl_file = strip_prefix ++ rest)
       /\ Forall (fun r => type r = RULE \/ type r = MACRO
                           \/ type r = REPOSITORY_RULE)
                 (build_pb2.Language.rule language))
  /\ ((forall rs, constructed <> Ok rs) -> constructed = Raise AssertionError).
Proof.
  assert (forall l : list build_pb2.RuleDefinition.t,
            Forall (fun r => known_kind (type r) = true) l
            <-> Forall (fun r => type r = RULE \/ type r = MACRO
                                 \/ type r = REPOSITORY_RULE) l) as Hkinds.
  { intros l. rewrite !Forall_forall. split; intros H r Hin;
      specialize (H r Hin); destruct (type r); try discriminate; auto;
      destruct H as [H|[H|H]]; discriminate. }
  split; [split|].
  - intros [rs Hok]. destruct (init_ok_inv bzl_file language title description strip_prefix format rs Hok) as [Hs Hk].
    split; [now apply prefix_true_iff | now apply Hkinds].
  - intros [Hs Hk]. apply prefix_true_iff in Hs. apply Hkinds in Hk.
    destruct (init_known_kinds bzl_file language title description
                strip_prefix format Hs Hk) as (rs & E & _).
    now exists rs.
  - intros Hnot. destruct constructed as [rs|[]] eqn:E; [|reflexivity].
    now elim (Hnot rs).
Qed.

(** X11: in a constructed rule set every descriptor of [rules] is of kind
    rule, every one of [macros] of kind macro and every one of
    [repository_rules] of kind repository rule, and the descriptors of
    [definitions] are those of the three groupings together. *)
Theorem X11_groupings_by_kind (rs : RuleSet.t) :
  constructed = Ok rs ->
  Forall (fun d => Rule.type d = RULE) (RuleSet.rules rs)
  /\ Forall (fun d => Rule.type d = MACRO) (RuleSet.macros rs)
  /\ Forall (fun d => Rule.type d = REPOSITORY_RULE) (RuleSet.repository_rules rs)
  /\ forall d,
       In d (RuleSet.definitions rs)
       <-> In d (RuleSet.rules rs) \/ In d (RuleSet.macros rs)
           \/ In d (RuleSet.repository_rules rs).
Proof.
  intros Hok. destruct (init_ok_inv bzl_file language title description strip_prefix format rs Hok) as [_ Hknown].
  destruct (init_ok_lists rs Hok) as (_ & _ & D & R & M & P).
  rewrite D, R, M, P.
  assert (forall k,
            Forall (fun d => Rule.type d = k)
                   (map Rule.__init__
                        (of_kind k (build_pb2.Language.rule language))))
    as Hkind.
  { intros k. apply Forall_forall. intros d Hin.
    apply in_map_iff in Hin as (r & <- & Hr).
    apply filter_In in Hr as [_ Hr]. now apply eqb_kind_eq in Hr. }
  repeat split; try apply Hkind.
  - intros Hin. apply in_map_iff in Hin as (r & <- & Hr).
    rewrite Forall_forall in Hknown. specialize (Hknown r Hr).
    destruct (type r) eqn:Ht; try discriminate;
      [left | right; left | right; right];
      apply in_map; apply filter_In; (split; [exact Hr | now rewrite Ht]).
  - intros [Hin|[Hin|Hin]]; apply in_map_iff in Hin as (r & <- & Hr);
      apply filter_In in Hr as [Hr _]; now apply in_map.
Qed.

(** X12: a constructed rule set keeps its inputs: the source path, the
    language message and the description are stored unchanged, and the
    messages the descriptors of [definitions] were built from are the
    entries of the language message, in order. *)
Theorem X12_inputs_kept (rs : RuleSet.t) :
  constructed = Ok rs ->
  RuleSet.bzl_file rs = bzl_file
  /\ RuleSet.language rs = language
  /\ RuleSet.description rs = description
  /\ map Rule.proto (RuleSet.definitions rs) = build_pb2.Language.rule language
  /\ map Rule.name (RuleSet.definitions rs)
     = map name (build_pb2.Language.rule language).
Proof.
  intros Hok. destruct (init_ok_fields rs Hok) as (B & L & D & _).
  destruct (init_ok_lists rs Hok) as (_ & _ & Defs & _).
  rewrite B, L, D, Defs, !map_map. cbn [Rule.proto Rule.name Rule.__init__].
  rewrite map_id. repeat split.
Qed.

(** X13: the unit name of a constructed rule set contains no slash. *)
Theorem X13_name_has_no_slash (rs : RuleSet.t) :
  constructed = Ok rs ->
  has_char "/"%char (RuleSet.name rs) = false
  /\ absent "/" (RuleSet.name rs).
Proof.
  intros Hok. destruct (init_ok_lists rs Hok) as (N & _).
  assert (has_char "/"%char (RuleSet.name rs) = false) as H.
  { rewrite N. apply replace_scan_has_char. apply basename_has_no_slash. }
  split; [exact H | now apply has_char_absent].
Qed.

(** X14: the output path of a constructed rule set is at most as long as
    the source path without the strip-prefix. *)
Theorem X14_output_file_length (rs : RuleSet.t) :
  constructed = Ok rs ->
  String.length (RuleSet.output_file rs) + String.length strip_prefix
  <= String.length bzl_file.
Proof.
  intros Hok. destruct (init_ok_inv bzl_file language title description strip_prefix format rs Hok) as [Hstarts _].
  destruct (init_ok_lists rs Hok) as (_ & O & _).
  apply prefix_true_iff in Hstarts as [rest Hrest].
  rewrite O, slice_from_length.
  pose proof (replace_scan_length ".bzl" bzl_file 0) as Hlen.
  unfold Py.replace. rewrite Hrest, length_append in *. lia.
Qed.

(** X15: when the directory of the source path does not contain the
    extension text and the strip-prefix is a prefix of that directory, up
    to and including its last slash, the output path is the rest of the
    directory followed by the unit name; for a source path without a slash
    and an empty strip-prefix the output path is the unit name. *)
Theorem X15_output_file_ends_with_name (rs : RuleSet.t) :
  constructed = Ok rs ->
  (forall dir base middle,
     bzl_file = dir ++ "/" ++ base -> absent "/" base -> absent ".bzl" dir ->
     dir ++ "/" = strip_prefix ++ middle ->
     RuleSet.output_file rs = middle ++ RuleSet.name rs)
  /\ (absent "/" bzl_file -> strip_prefix = EmptyString ->
      RuleSet.output_file rs = RuleSet.name rs).
Proof.
  intros Hok. destruct (init_ok_lists rs Hok) as (N & O & _). split.
  - intros dir base middle Hpath Hbase Hdir Hprefix.
    rewrite O, N, Hpath, (basename_after_last_slash dir base Hbase).
    change (dir ++ "/" ++ base) with (dir ++ String "/"%char base).
    rewrite replace_at_slash, (replace_no_extension dir Hdir).
    change (dir ++ String "/"%char (Py.replace base ".bzl" EmptyString))
      with (dir ++ "/" ++ Py.replace base ".bzl" EmptyString).
    rewrite <- append_assoc, Hprefix, append_assoc.
    apply slice_from_append.
  - intros Hpath ->. rewrite O, N, (basename_no_slash bzl_file Hpath).
    reflexivity.
Qed.

(** X16: a constructed rule set is empty exactly when the language message
    has no entry, that is when [definitions] is empty. *)
Theorem X16_empty_iff_no_entry (rs : RuleSet.t) :
  constructed = Ok rs ->
  (RuleSet.empty rs = true <-> build_pb2.Language.rule language = [])
  /\ (RuleSet.empty rs = true <-> RuleSet.definitions rs = []).
Proof.
  intros Hok. destruct (init_ok_inv bzl_file language title description strip_prefix format rs Hok) as [_ Hknown].
  destruct (init_ok_lists rs Hok) as (_ & _ & D & R & M & P).
  pose proof (length_by_kind _ Hknown) as Hlen.
  unfold RuleSet.empty, RuleSet.any. cbn [existsb].
  rewrite D, R, M, P.
  destruct (build_pb2.Language.rule language) as [|r l] eqn:El.
  - cbn. split; split; reflexivity.
  - split; (split; [|discriminate]); intros H; exfalso;
      destruct (of_kind RULE (r :: l)); try discriminate H;
      destruct (of_kind MACRO (r :: l)); try discriminate H;
      destruct (of_kind REPOSITORY_RULE (r :: l)); try discriminate H;
      simpl in Hlen; lia.
Qed.

End RuleSetMore.

Section RuleSetMoreWitnesses.

Import build_pb2.RuleDefinition.

(** A language message with a rule and a macro, used below. *)
Let sample : build_pb2.Language.t :=
  build_pb2.Language.Build
    [Build "go_library" RULE "Builds a library." EmptyString [] [];
     Build "go_prefix" MACRO EmptyString EmptyString [] []].

Lemma X9_title_witness :
  exists rs,
    RuleSet.__init__ "docs/rules/go.bzl" sample (Some EmptyString) None "docs/"
                     "html" = Ok rs
    /\ RuleSet.title rs = "go Rules".
Proof.
  eexists. split; [reflexivity|].
  refine (proj2 (proj2 (X9_title "docs/rules/go.bzl" sample (Some EmptyString)
                          None "docs/" "html" _ eq_refl)) _).
  now right.
Defined.

Lemma X11_groupings_by_kind_witness :
  exists rs,
    RuleSet.__init__ "docs/rules/go.bzl" sample None None "docs/" "html" = Ok rs
    /\ Forall (fun d => Rule.type d = RULE) (RuleSet.rules rs).
Proof.
  eexists. split; [reflexivity|].
  exact (proj1 (X11_groupings_by_kind "docs/rules/go.bzl" sample None None
                  "docs/" "html" _ eq_refl)).
Defined.

Lemma X12_inputs_kept_witness :
  exists rs,
    RuleSet.__init__ "docs/rules/go.bzl" sample None (Some "Go rules.") "docs/"
                     "html" = Ok rs
    /\ map Rule.proto (RuleSet.definitions rs) = build_pb2.Language.rule sample.
Proof.
  eexists. split; [reflexivity|].
  exact (proj1 (proj2 (proj2 (proj2
           (X12_inputs_kept "docs/rules/go.bzl" sample None (Some "Go rules.")
              "docs/" "html" _ eq_refl))))).
Defined.

Lemma X13_name_has_no_slash_witness :
  exists rs,
    RuleSet.__init__ "docs/rules/go.bzl" sample None None "docs/" "html" = Ok rs
    /\ has_char "/"%char (RuleSet.name rs) = false.
Proof.
  eexists. split; [reflexivity|].
  exact (proj1 (X13_name_has_no_slash "docs/rules/go.bzl" sample None None
                  "docs/" "html" _ eq_refl)).
Defined.

Lemma X14_output_file_length_witness :
  exists rs,
    RuleSet.__init__ "docs/rules/go.bzl" sample None None "docs/" "html" = Ok rs
    /\ String.length (RuleSet.output_file rs) + String.length "docs/"
       <= String.length "docs/rules/go.bzl".
Proof.
  eexists. split; [reflexivity|].
  exact (X14_output_file_length "docs/rules/go.bzl" sample None None "docs/"
           "html" _ eq_refl).
Defined.

Lemma X15_output_file_ends_with_name_witness :
  exists rs,
    RuleSet.__init__ "docs/rules/go.bzl" sample None None "docs/" "html" = Ok rs
    /\ RuleSet.output_file rs = "rules/" ++ RuleSet.name rs.
Proof.
  eexists. split; [reflexivity|].
  refine (proj1 (X15_output_file_ends_with_name "docs/rules/go.bzl" sample None
                   None "docs/" "html" _ eq_refl)
            "docs/rules" "go.bzl" "rules/" eq_refl _ _ eq_refl);
    apply occurs_false_absent; reflexivity.
Defined.

Lemma X16_empty_iff_no_entry_witness :
  exists rs,
    RuleSet.__init__ "docs/rules/go.bzl" (build_pb2.Language.Build []) None None
                     "docs/" "html" = Ok rs
    /\ RuleSet.empty rs = true.
Proof.
  eexists. split; [reflexivity|].
  exact (proj2 (proj1 (X16_empty_iff_no_entry "docs/rules/go.bzl"
                         (build_pb2.Language.Build []) None None "docs/" "html"
                         _ eq_refl)) eq_refl).
Defined.

End RuleSetMoreWitnesses.
